(** * ML4SMILES: the [optimization] class of [optimization.py]

    A shallow embedding of the orchestration logic of the class
    [optimization] (data preparation, baseline model selection, the
    hyperparameter search and the trainer), followed by the properties of
    that logic.

    Conventions of the embedding.
    - Python floats are idealised as rationals ([Q]); integers are [Z].
    - A pandas table is a finite map from column label to column; a
      two-dimensional array ([.values]) is the list of its columns, in the
      order of the selecting label list.
    - An exception is a value of [exn]; a computation that may raise returns
      an [outcome].  Methods run in the monad [M], which threads the
      interpreter state ([world]): the instance [self], the heap of
      estimator objects (so that aliases of one estimator are visible), the
      files written, and a log of the calls made to the cross-validated
      scorer and to [fit].
    - The third-party collaborators (the scorer and the four minimizers of
      scikit-optimize, the scaler of scikit-learn) are interfaces: type
      classes whose instances are supplied by the caller. *)

From Stdlib Require Import QArith ZArith String List Lqa.
From stdpp Require Import gmap strings list.

Open Scope string_scope.

(** ** Python values, exceptions, outcomes *)

Inductive value : Type :=
  | VNone
  | VInt (z : Z)
  | VReal (q : Q)
  | VStr (s : string).

Inductive exn : Type :=
  | KeyError (key : string)
  | AttributeError (attr : string)
  | UnboundLocalError (var : string)
  | ValueError (msg : string)
  | IndexError (msg : string).

Inductive outcome (A : Type) : Type :=
  | Return (a : A)
  | Raise (e : exn).
Arguments Return {A} a.
Arguments Raise {A} e.

#[global] Instance outcome_ret : MRet outcome := fun _ a => Return a.
#[global] Instance outcome_bind : MBind outcome := fun _ _ f m =>
  match m with
  | Return a => f a
  | Raise e => Raise e
  end.

Definition raises {A} (o : outcome A) : Prop := exists e, o = Raise e.

(** ** Tables *)

Abbreviation column := (list Q).
Abbreviation matrix := (list (list Q)).
Abbreviation table := (gmap string (list Q)).

(** [df[cols].values]: the columns named by [cols], in that order; a label
    that is not a column of [df] raises [KeyError]. *)
Fixpoint select (df : table) (cols : list string) : outcome matrix :=
  match cols with
  | [] => Return []
  | c :: cs =>
      match df !! c with
      | None => Raise (KeyError c)
      | Some v => m ← select df cs; Return (v :: m)
      end
  end.

(** [df[cols] = pd.DataFrame(m, columns=df[cols].columns, index=df[cols].index)]:
    each selected column is overwritten by the column of [m] at its
    position; the row index is the table's own, so rows stay aligned. *)
Definition assign (df : table) (cols : list string) (m : matrix) : table :=
  foldl (fun t cv => <[cv.1 := cv.2]> t) df (zip cols m).

(** ** The scaler interface, and the min-max scaler *)

Class Scaler : Type := {
  scaler_params : Type;
  scaler_fit : matrix -> outcome scaler_params;
  scaler_transform : scaler_params -> matrix -> outcome matrix
}.

(** [scaling.fit_transform(X)] is [scaling.fit(X).transform(X)]. *)
Definition fit_transform `{Scaler} (X : matrix) : outcome (scaler_params * matrix) :=
  p ← scaler_fit X; m ← scaler_transform p X; Return (p, m).

Definition qmin (x : Q) (l : column) : Q :=
  foldl (fun a b => if Qle_bool b a then b else a) x l.
Definition qmax (x : Q) (l : column) : Q :=
  foldl (fun a b => if Qle_bool a b then b else a) x l.

Record minmax_feature : Type := {
  data_min_ : Q;
  data_max_ : Q;
  scale_ : Q;
  min_ : Q
}.

(** A constant feature has range zero; its scale is taken to be one. *)
Definition handle_zeros_in_scale (r : Q) : Q :=
  if Qeq_bool r 0 then 1%Q else r.

Definition minmax_fit_column (c : column) : outcome minmax_feature :=
  match c with
  | [] => Raise (ValueError "Found array with 0 sample(s)")
  | x :: xs =>
      let lo := qmin x xs in
      let hi := qmax x xs in
      let sc := ((1 - 0) / handle_zeros_in_scale (hi - lo))%Q in
      Return {| data_min_ := lo; data_max_ := hi; scale_ := sc;
                min_ := (0 - lo * sc)%Q |}
  end.

Fixpoint minmax_fit_columns (X : matrix) : outcome (list minmax_feature) :=
  match X with
  | [] => Return []
  | c :: cs => p ← minmax_fit_column c; ps ← minmax_fit_columns cs; Return (p :: ps)
  end.

(** [fit] refuses an array without columns, as it refuses one without
    rows. *)
Definition minmax_fit (X : matrix) : outcome (list minmax_feature) :=
  match X with
  | [] => Raise (ValueError "Found array with 0 feature(s)")
  | _ => minmax_fit_columns X
  end.

Definition minmax_transform_column (p : minmax_feature) (c : column) : column :=
  map (fun x => (x * scale_ p + min_ p)%Q) c.

Fixpoint minmax_transform_columns (ps : list minmax_feature) (X : matrix)
  : outcome matrix :=
  match ps, X with
  | [], [] => Return []
  | p :: ps', c :: cs =>
      match c with
      | [] => Raise (ValueError "Found array with 0 sample(s)")
      | _ => m ← minmax_transform_columns ps' cs;
             Return (minmax_transform_column p c :: m)
      end
  | _, _ => Raise (ValueError "X has a different number of features")
  end.

(** [transform] refuses an array without columns or without rows. *)
Definition minmax_transform (ps : list minmax_feature) (X : matrix) : outcome matrix :=
  match X with
  | [] => Raise (ValueError "Found array with 0 feature(s)")
  | _ => minmax_transform_columns ps X
  end.

(** Modelled from the spec: the scaler itself is code of scikit-learn, not
    of this repository; the spec calls it "a min-max scaler (output range
    [0,1])" fit on the feature columns.  Per column it records the minimum
    and the maximum seen by [fit], and [transform] maps [x] to
    [x * scale_ + min_] with [scale_ = 1 / (max - min)] and
    [min_ = 0 - min * scale_].  The arithmetic is that of the rationals,
    where the program rounds to doubles: what is proved of it below is
    kept to what rounding preserves (order, and the exact zero at the
    minimum), and leaves out the exact upper bound [1]. *)
#[global] Instance MinMaxScaler : Scaler := {
  scaler_params := list minmax_feature;
  scaler_fit := minmax_fit;
  scaler_transform := minmax_transform
}.

(** ** The instance *)

Definition loc := nat.

Inductive constructor : Type :=
  | LGBMClassifier
  | LGBMRegressor
  | XGBClassifier
  | XGBRegressor.

Record estimator_obj : Type := {
  ctor : constructor;
  params : gmap string value;
  fitted : option (matrix * column)
}.

Inductive dimension : Type :=
  | Real (low high : Q) (name prior : string)
  | Integer (low high : Z) (name : string).

Definition dim_name (d : dimension) : string :=
  match d with
  | Real _ _ n _ => n
  | Integer _ _ n => n
  end.

(** The result object of a minimizer: the best point, and the trace. *)
Record OptimizeResult : Type := {
  x : list value;
  x_iters : list (list value);
  func_vals : list Q
}.

(** The attributes of [self].  An attribute that a later method creates is
    an [option]: [None] while the attribute does not exist.  A reference
    that may hold Python's [None] is an [option loc]. *)
Record optimization : Type := {
  path_to_save : string;
  sample_train : table;
  sample_test : table;
  RFE_features : list string;
  target : string;
  problem : string;
  estimator : option loc;
  boosting_method : option string;
  space : option (list dimension);
  hyperparameters : option (list string);
  optimization_method : option string;
  opt : option OptimizeResult;
  values : option (list value);
  model : option (option loc)
}.

(** Lines 73-88: the scaling of the feature columns.  The fitted scaler is
    a local of [__init__]; it is returned here so that it can be spoken
    of. *)
Definition scale_features `{Scaler} (train test : table) (features : list string)
  : outcome (scaler_params * table * table) :=
  Xtrain ← select train features;
  fitted_train ← fit_transform Xtrain;
  let train' := assign train features fitted_train.2 in
  Xtest ← select test features;
  Ttest ← scaler_transform fitted_train.1 Xtest;
  Return (fitted_train.1, train', assign test features Ttest).

(** [__init__].  The two tables and the feature list are what the loader
    returned for the given paths; [est] is [kwargs.get('estimator')]. *)
Definition __init__ `{Scaler} (path : string) (train test : table) (tgt : string)
    (features : list string) (scaled : bool) (prob : string) (est : option loc)
  : outcome optimization :=
  let self := fun tr te =>
    {| path_to_save := path; sample_train := tr; sample_test := te;
       RFE_features := features; target := tgt; problem := prob;
       estimator := est; boosting_method := None; space := None;
       hyperparameters := None; optimization_method := None; opt := None;
       values := None; model := None |} in
  if scaled then Return (self train test)
  else
    r ← scale_features train test features;
    Return (self r.1.2 r.2).

(** ** The interpreter state and the method monad *)

(** The four minimizers of scikit-optimize, as the functions they are. *)
Inductive minimizer : Type :=
  | dummy_minimize
  | gp_minimize
  | gbrt_minimize
  | forest_minimize.

(** What [dump] can be handed in this module: a function object, or a
    result object. *)
Inductive pickled : Type :=
  | PickledFunction (f : minimizer)
  | PickledResult (r : OptimizeResult).

(** One call of [cross_val_score]: estimator, X, y, cv, n_jobs, scoring. *)
Record cv_call : Type := {
  cv_estimator : estimator_obj;
  cv_X : matrix;
  cv_y : column;
  cv_folds : nat;
  cv_n_jobs : Z;
  cv_scoring : string
}.

Record world : Type := {
  self : optimization;
  heap : gmap loc estimator_obj;
  files : gmap string pickled;
  cv_log : list cv_call;
  fit_log : list (loc * matrix * column)
}.

Definition M (A : Type) : Type := world -> outcome A * world.

#[global] Instance M_ret : MRet M := fun _ a w => (Return a, w).
#[global] Instance M_bind : MBind M := fun _ _ f m w =>
  match m w with
  | (Return a, w') => f a w'
  | (Raise e, w') => (Raise e, w')
  end.

Definition raise {A} (e : exn) : M A := fun w => (Raise e, w).
Definition read {A} (f : optimization -> A) : M A := fun w => (Return (f (self w)), w).
Definition lift {A} (o : outcome A) : M A := fun w => (o, w).

(** [self.attr], for an attribute that may not exist yet. *)
Definition getattr {A} (name : string) (f : optimization -> option A) : M A :=
  fun w =>
    match f (self w) with
    | Some a => (Return a, w)
    | None => (Raise (AttributeError name), w)
    end.

Definition update_self (f : optimization -> optimization) : M unit :=
  fun w => (Return tt,
            {| self := f (self w); heap := heap w; files := files w;
               cv_log := cv_log w; fit_log := fit_log w |}).

Definition set_estimator (v : option loc) (s : optimization) : optimization :=
  {| path_to_save := path_to_save s; sample_train := sample_train s;
     sample_test := sample_test s; RFE_features := RFE_features s;
     target := target s; problem := problem s; estimator := v;
     boosting_method := boosting_method s; space := space s;
     hyperparameters := hyperparameters s;
     optimization_method := optimization_method s; opt := opt s;
     values := values s; model := model s |}.

Definition set_boosting_method (v : string) (s : optimization) : optimization :=
  {| path_to_save := path_to_save s; sample_train := sample_train s;
     sample_test := sample_test s; RFE_features := RFE_features s;
     target := target s; problem := problem s; estimator := estimator s;
     boosting_method := Some v; space := space s;
     hyperparameters := hyperparameters s;
     optimization_method := optimization_method s; opt := opt s;
     values := values s; model := model s |}.

Definition set_space (v : list dimension) (s : optimization) : optimization :=
  {| path_to_save := path_to_save s; sample_train := sample_train s;
     sample_test := sample_test s; RFE_features := RFE_features s;
     target := target s; problem := problem s; estimator := estimator s;
     boosting_method := boosting_method s; space := Some v;
     hyperparameters := hyperparameters s;
     optimization_method := optimization_method s; opt := opt s;
     values := values s; model := model s |}.

Definition set_hyperparameter_names (v : list string) (s : optimization) : optimization :=
  {| path_to_save := path_to_save s; sample_train := sample_train s;
     sample_test := sample_test s; RFE_features := RFE_features s;
     target := target s; problem := problem s; estimator := estimator s;
     boosting_method := boosting_method s; space := space s;
     hyperparameters := Some v;
     optimization_method := optimization_method s; opt := opt s;
     values := values s; model := model s |}.

Definition set_optimization_method (v : string) (s : optimization) : optimization :=
  {| path_to_save := path_to_save s; sample_train := sample_train s;
     sample_test := sample_test s; RFE_features := RFE_features s;
     target := target s; problem := problem s; estimator := estimator s;
     boosting_method := boosting_method s; space := space s;
     hyperparameters := hyperparameters s;
     optimization_method := Some v; opt := opt s;
     values := values s; model := model s |}.

Definition set_opt (v : OptimizeResult) (s : optimization) : optimization :=
  {| path_to_save := path_to_save s; sample_train := sample_train s;
     sample_test := sample_test s; RFE_features := RFE_features s;
     target := target s; problem := problem s; estimator := estimator s;
     boosting_method := boosting_method s; space := space s;
     hyperparameters := hyperparameters s;
     optimization_method := optimization_method s; opt := Some v;
     values := values s; model := model s |}.

Definition set_values (v : list value) (s : optimization) : optimization :=
  {| path_to_save := path_to_save s; sample_train := sample_train s;
     sample_test := sample_test s; RFE_features := RFE_features s;
     target := target s; problem := problem s; estimator := estimator s;
     boosting_method := boosting_method s; space := space s;
     hyperparameters := hyperparameters s;
     optimization_method := optimization_method s; opt := opt s;
     values := Some v; model := model s |}.

Definition set_model (v : option loc) (s : optimization) : optimization :=
  {| path_to_save := path_to_save s; sample_train := sample_train s;
     sample_test := sample_test s; RFE_features := RFE_features s;
     target := target s; problem := problem s; estimator := estimator s;
     boosting_method := boosting_method s; space := space s;
     hyperparameters := hyperparameters s;
     optimization_method := optimization_method s; opt := opt s;
     values := values s; model := Some v |}.

(** Allocation of a new estimator object. *)
Definition new (e : estimator_obj) : M loc :=
  fun w =>
    let l := fresh (dom (heap w)) in
    (Return l,
     {| self := self w; heap := <[l := e]> (heap w); files := files w;
        cv_log := cv_log w; fit_log := fit_log w |}).

(** [ref.attr] on a reference: the object behind it, or the
    [AttributeError] of [None.attr]. *)
Definition deref (r : option loc) (attr : string) : M (loc * estimator_obj) :=
  fun w =>
    match r with
    | None => (Raise (AttributeError attr), w)
    | Some l =>
        match heap w !! l with
        | Some e => (Return (l, e), w)
        | None => (Raise (AttributeError attr), w)
        end
    end.

Definition store (l : loc) (e : estimator_obj) : M unit :=
  fun w => (Return tt,
            {| self := self w; heap := <[l := e]> (heap w); files := files w;
               cv_log := cv_log w; fit_log := fit_log w |}).

(** [est.set_params] with the keyword arguments [kw]: the named
    parameters are overwritten, the others kept. *)
Definition with_params (kw : gmap string value) (e : estimator_obj) : estimator_obj :=
  {| ctor := ctor e; params := kw ∪ params e; fitted := fitted e |}.

Definition set_params (r : option loc) (kw : gmap string value) : M unit :=
  o ← deref r "set_params"; store o.1 (with_params kw o.2).

(** [est.fit(X, y)]: training is the library's; the object remembers what
    it was fitted on and keeps its parameters. *)
Definition fit (r : option loc) (X : matrix) (y : column) : M unit :=
  fun w =>
    match deref r "fit" w with
    | (Return (l, e), _) =>
        (Return tt,
         {| self := self w;
            heap := <[l := {| ctor := ctor e; params := params e;
                              fitted := Some (X, y) |}]> (heap w);
            files := files w; cv_log := cv_log w;
            fit_log := fit_log w ++ [(l, X, y)] |})
    | (Raise e, _) => (Raise e, w)
    end.

(** [dump(obj, path)]. *)
Definition dump (obj : pickled) (path : string) : M unit :=
  fun w => (Return tt,
            {| self := self w; heap := heap w; files := <[path := obj]> (files w);
               cv_log := cv_log w; fit_log := fit_log w |}).

(** [os.path.join(a, b)] on a POSIX system. *)
Definition os_path_join (a b : string) : string :=
  if String.prefix "/" b then b
  else if String.eqb a "" then b
  else if String.eqb (String.substring (String.length a - 1) 1 a) "/" then a ++ b
  else a ++ "/" ++ b.

(** ** The collaborators

    [cross_val_score] returns the per-fold scores; [minimize f] runs the
    minimizer [f] on an objective, a space, a call budget and optional
    initial points. *)
Class Collaborators : Type := {
  cross_val_score : estimator_obj -> matrix -> column -> nat -> Z -> string -> list Q;
  minimize : minimizer -> (list value -> M Q) -> list dimension -> nat ->
             option (list (list value)) -> M OptimizeResult
}.

(** ** Model Selector: [base_model] *)

(** [kwargs.get(k)]: the value, or [None]. *)
Definition kwargs_get (kwargs : gmap string value) (k : string) : value :=
  default VNone (kwargs !! k).

(** The keyword arguments of each constructor call; a parameter that the
    call does not name keeps the library's default and is not listed. *)
Definition lgbm_classifier_args (objective : value) : gmap string value :=
  list_to_map [("boosting_type", VStr "gbdt"); ("objective", objective);
               ("random_state", VInt 42); ("importance_type", VStr "gain");
               ("max_depth", VInt (-1)); ("verbose", VInt (-1))].

Definition xgb_classifier_args (objective : value) : gmap string value :=
  list_to_map [("objective", objective); ("booster", VStr "gbtree");
               ("random_state", VInt 42); ("importance_type", VStr "total_gain")].

Definition lgbm_regressor_args : gmap string value :=
  list_to_map [("boosting_type", VStr "gbdt"); ("random_state", VInt 42);
               ("importance_type", VStr "gain"); ("max_depth", VInt (-1));
               ("verbose", VInt (-1))].

Definition construct (c : constructor) (args : gmap string value) : M unit :=
  l ← new {| ctor := c; params := args; fitted := None |};
  update_self (set_estimator (Some l)).

Definition base_model (boosting : string) (kwargs : gmap string value) : M (option loc) :=
  _ ← update_self (set_boosting_method boosting);
  let objective := kwargs_get kwargs "objective" in
  prob ← read problem;
  method ← getattr "boosting_method" boosting_method;
  _ ← (if String.eqb prob "classification" then
         if String.eqb method "lightGBM" then
           construct LGBMClassifier (lgbm_classifier_args objective)
         else if String.eqb method "XGBoost" then
           construct XGBClassifier (xgb_classifier_args objective)
         else mret tt
       else if String.eqb prob "regression" then
         if String.eqb method "lightGBM" then
           construct LGBMRegressor lgbm_regressor_args
         else if String.eqb method "XGBoost" then
           construct XGBClassifier (xgb_classifier_args (VStr "reg:squarederror"))
         else mret tt
       else mret tt);
  read estimator.

(** ** Hyperparameter Search *)

Definition the_space : list dimension :=
  [Real (1 # 10000) 1 "learning_rate" "log-uniform";
   Integer 100 3000 "n_estimators";
   Integer 10 400 "num_leaves"].

Definition the_hyperparameters : list string :=
  ["learning_rate"; "n_estimators"; "num_leaves"].

Definition set_hyperparameters : M (list string * list dimension) :=
  _ ← update_self (set_space the_space);
  _ ← update_self (set_hyperparameter_names the_hyperparameters);
  hp ← getattr "hyperparameters" hyperparameters;
  sp ← getattr "space" space;
  mret (hp, sp).

(** The dictionary that [use_named_args(dimensions)] builds from a point:
    [{dim.name: value for dim, value in zip(dimensions, x)}]. *)
Definition named_args (dimensions : list dimension) (point : list value)
  : gmap string value :=
  foldl (fun d nv => <[nv.1 := nv.2]> d) ∅ (zip (dim_name <$> dimensions) point).

(** [np.mean] of a sequence of scores (of an empty one: [0], where numpy
    gives [nan]). *)
Definition np_mean (l : list Q) : Q :=
  (foldr Qplus 0 l / inject_Z (Z.of_nat (length l)))%Q.

(** [df[label]]. *)
Definition getitem (df : table) (label : string) : outcome column :=
  match df !! label with
  | Some c => Return c
  | None => Raise (KeyError label)
  end.

Section Search.
Context `{Collaborators}.

(** A call of the scorer, recorded. *)
Definition scored (e : estimator_obj) (X : matrix) (y : column) (cv : nat)
    (n_jobs : Z) (scoring : string) : M (list Q) :=
  fun w =>
    (Return (cross_val_score e X y cv n_jobs scoring),
     {| self := self w; heap := heap w; files := files w;
        cv_log := cv_log w ++ [{| cv_estimator := e; cv_X := X; cv_y := y;
                                  cv_folds := cv; cv_n_jobs := n_jobs;
                                  cv_scoring := scoring |}];
        fit_log := fit_log w |}).

(** The objective, as wrapped by [use_named_args(dimensions)]: it takes a
    point, and reads [self] when it is called. *)
Definition objective (dimensions : list dimension) (point : list value) : M Q :=
  if negb (length point =? length dimensions)%nat then
    raise (ValueError "point and dimensions differ in length")
  else
    let kw := named_args dimensions point in
    prob ← read problem;
    let scoring :=
      if String.eqb prob "classification" then Some "roc_auc"
      else if String.eqb prob "regression" then Some "neg_root_mean_squared_error"
      else None in
    est ← read estimator;
    _ ← set_params est kw;
    est ← read estimator;
    o ← deref est "set_params";
    train ← read sample_train;
    features ← read RFE_features;
    X ← lift (select train features);
    tgt ← read target;
    y ← lift (getitem train tgt);
    sc ← match scoring with
          | Some sc => mret sc
          | None => raise (UnboundLocalError "scoring")
          end;
    scores ← scored o.2 X y 5 (-1) sc;
    mret (- np_mean scores)%Q.

(** The strategy dispatch of [run]: the local [opt_method] is bound only
    in the four branches. *)
Definition opt_method_of (optimization_method : string) : option minimizer :=
  if String.eqb optimization_method "random_search" then Some dummy_minimize
  else if String.eqb optimization_method "bayesian" then Some gp_minimize
  else if String.eqb optimization_method "gradient_bossted_trees" then Some gbrt_minimize
  else if String.eqb optimization_method "decision_trees" then Some forest_minimize
  else None.

(** [l[i]] on a list. *)
Definition index {A} (l : list A) (i : nat) : M A :=
  match l !! i with
  | Some a => mret a
  | None => raise (IndexError "list index out of range")
  end.

(** The loop of lines 236-238, over the indices [range(0, len(self.opt.x))]. *)
Fixpoint report (indices : list nat) : M unit :=
  match indices with
  | [] => mret tt
  | i :: rest =>
      hp ← getattr "hyperparameters" hyperparameters;
      _ ← index hp i;
      o ← getattr "opt" opt;
      v ← index (x o) i;
      vs ← getattr "values" values;
      _ ← update_self (set_values (vs ++ [v]));
      report rest
  end.

Definition artifact_name (tgt : string) : string :=
  "optimization_data_" ++ tgt ++ ".pkl".

Definition run (method : string) (n_calls : nat) (x0 : option (list (list value)))
  : M unit :=
  dimensions ← getattr "space" space;
  let objective := objective dimensions in
  _ ← update_self (set_optimization_method method);
  method' ← getattr "optimization_method" optimization_method;
  opt_method ← match opt_method_of method' with
                | Some f => mret f
                | None => raise (UnboundLocalError "opt_method")
                end;
  dimensions' ← getattr "space" space;
  r ← minimize opt_method objective dimensions' n_calls x0;
  _ ← update_self (set_opt r);
  _ ← update_self (set_values []);
  o ← getattr "opt" opt;
  _ ← report (seq 0 (length (x o)));
  dir ← read path_to_save;
  tgt ← read target;
  dump (PickledFunction opt_method) (os_path_join dir (artifact_name tgt)).
End Search.

(** ** Trainer *)

(** The loop of lines 325-326. *)
Fixpoint apply_hyperparameters (pairs : list (string * value)) : M unit :=
  match pairs with
  | [] => mret tt
  | (p, v) :: rest =>
      m ← getattr "model" model;
      _ ← set_params m {[ p := v ]};
      apply_hyperparameters rest
  end.

Definition train_model : M (option loc) :=
  est ← read estimator;
  _ ← update_self (set_model est);
  hp ← getattr "hyperparameters" hyperparameters;
  vs ← getattr "values" values;
  _ ← apply_hyperparameters (zip hp vs);
  m ← getattr "model" model;
  _ ← deref m "fit";
  train ← read sample_train;
  features ← read RFE_features;
  X ← lift (select train features);
  tgt ← read target;
  y ← lift (getitem train tgt);
  _ ← fit m X y;
  getattr "model" model.

(** ** Diagnostic plots: the files they save

    The drawing is matplotlib's and scikit-optimize's: the plotting
    functions and [savefig] are collaborators, and each of them may raise.
    What is kept of [convergence_plot], [objective_plot] and
    [objective_plot_adjust] is what they read of [self], the calls they
    make and the paths they hand to [savefig], in order. *)

Class Plotter : Type := {
  plot_convergence : string -> OptimizeResult -> outcome unit;
  plot_objective : OptimizeResult -> gmap string value -> outcome unit;
  plot_evaluations : OptimizeResult -> outcome unit;
  save_figure : string -> outcome unit
}.

Record studio : Type := {
  lab : world;
  saved : list string
}.

Definition P (A : Type) : Type := studio -> outcome A * studio.

#[global] Instance P_ret : MRet P := fun _ a s => (Return a, s).
#[global] Instance P_bind : MBind P := fun _ _ f m s =>
  match m s with
  | (Return a, s') => f a s'
  | (Raise e, s') => (Raise e, s')
  end.

(** [self.attr] in a plotting method. *)
Definition attr {A} (name : string) (f : optimization -> option A) : P A :=
  fun s =>
    match f (self (lab s)) with
    | Some a => (Return a, s)
    | None => (Raise (AttributeError name), s)
    end.

Definition field {A} (f : optimization -> A) : P A :=
  fun s => (Return (f (self (lab s))), s).

(** A call of a plotting function. *)
Definition call {A} (o : outcome A) : P A := fun s => (o, s).

Section Plots.
Context `{Plotter}.

(** [savefig(path)]: the path is recorded when the file was written. *)
Definition savefig (path : string) : P unit :=
  fun s =>
    match save_figure path with
    | Return _ => (Return tt, {| lab := lab s; saved := saved s ++ [path] |})
    | Raise e => (Raise e, s)
    end.

Definition convergence_plot : P unit :=
  method ← attr "optimization_method" optimization_method;
  o ← attr "opt" opt;
  _ ← call (plot_convergence method o);
  dir ← field path_to_save;
  tgt ← field target;
  savefig (os_path_join dir ("Optimisation_result_" ++ tgt ++ ".png")).

Definition objective_plot (save : bool) : P unit :=
  o ← attr "opt" opt;
  _ ← call (plot_objective o {[ "n_points" := VInt 40 ]});
  _ ← (if save then
         dir ← field path_to_save; savefig (dir ++ "plot_objective.png")
       else mret tt);
  o ← attr "opt" opt;
  _ ← call (plot_evaluations o);
  if save then
    dir ← field path_to_save; savefig (dir ++ "plot_evaluations.png")
  else mret tt.

Definition objective_plot_adjust (sample_source minimum n_minimum_search : value)
    (save : bool) : P unit :=
  o ← attr "opt" opt;
  _ ← call (plot_objective o
              (<["n_points" := VInt 40]>
                 (<["minimum" := minimum]>
                    (<["sample_source" := sample_source]>
                       {[ "n_minimum_search" := n_minimum_search ]}))));
  if save then
    dir ← field path_to_save; savefig (dir ++ "plot_objective_adjusted.png")
  else mret tt.
End Plots.

(** ** Predicates used by the properties *)

(** The parameters of an estimator after the loop of lines 325-326 went
    through [pairs]. *)
Definition bound_params (pairs : list (string * value)) (m : gmap string value)
  : gmap string value :=
  foldl (fun m pv => {[ pv.1 := pv.2 ]} ∪ m) m pairs.

(** The conditions under which [train_model] gets through. *)
Definition trainable (w : world) (hp : list string) (vs : list value) (l : loc)
    (e : estimator_obj) (X : matrix) (y : column) : Prop :=
  hyperparameters (self w) = Some hp /\ values (self w) = Some vs /\
  estimator (self w) = Some l /\ heap w !! l = Some e /\
  select (sample_train (self w)) (RFE_features (self w)) = Return X /\
  sample_train (self w) !! target (self w) = Some y.

(** The state after a training that got through. *)
Definition trained (w : world) (hp : list string) (vs : list value) (l : loc)
    (e : estimator_obj) (X : matrix) (y : column) : world :=
  {| self := set_model (Some l) (self w);
     heap := <[l := {| ctor := ctor e;
                       params := bound_params (zip hp vs) (params e);
                       fitted := Some (X, y) |}]> (heap w);
     files := files w; cv_log := cv_log w;
     fit_log := fit_log w ++ [(l, X, y)] |}.

(** The last character of [a] is the path separator. *)
Definition ends_with_sep (a : string) : bool :=
  String.eqb (String.substring (String.length a - 1) 1 a) "/".


(** [h'] still holds every object of [h], with the same constructor and
    with the same parameters except, possibly, those named in [names]. *)
Definition same_outside (names : list string) (h h' : gmap loc estimator_obj) : Prop :=
  forall l e, h !! l = Some e ->
    exists e', h' !! l = Some e' /\ ctor e' = ctor e /\
      forall p, p ∉ names -> params e' !! p = params e !! p.

(** [w'] differs from [w] at most in the attribute [self.values]. *)
Definition values_only (w w' : world) : Prop :=
  heap w' = heap w /\ files w' = files w /\
  cv_log w' = cv_log w /\ fit_log w' = fit_log w /\
  (self w' = self w \/ exists vs, self w' = set_values vs (self w)).

(** The strategy names that [run] knows. *)
Definition known_strategies : list string :=
  ["random_search"; "bayesian"; "gradient_bossted_trees"; "decision_trees"].

(** ** Test doubles

    A scorer that returns five fixed fold scores, and a minimizer that
    evaluates the objective once, at the first initial point (or at a
    default point), and reports that point as the best. *)
Module Stub.

Definition fold_scores : list Q := [3 # 4; 4 # 5; 7 # 10; 3 # 4; 1]%Q.

Definition default_point : list value := [VReal (1 # 10); VInt 100; VInt 31].

Definition one_shot (func : list value -> M Q) (x0 : option (list (list value)))
  : M OptimizeResult :=
  let p := match x0 with
           | Some (p :: _) => p
           | _ => default_point
           end in
  y ← func p;
  mret {| x := p; x_iters := [p]; func_vals := [y] |}.

#[export] Instance collaborators : Collaborators := {
  cross_val_score := fun _ _ _ _ _ _ => fold_scores;
  minimize := fun _ func _ _ x0 => one_shot func x0
}.

Definition train : table :=
  list_to_map [("a", [0; 5; 10] : column); ("b", [2; 2; 2] : column);
               ("y", [0; 1; 1] : column)]%Q.

Definition test : table :=
  list_to_map [("a", [20; 5] : column); ("b", [3; 2] : column);
               ("y", [1; 0] : column)]%Q.

Definition test' : table :=
  list_to_map [("a", [1; 7] : column); ("b", [2; 2] : column);
               ("y", [1; 0] : column)]%Q.

Definition boot (o : outcome optimization) : option world :=
  match o with
  | Return s => Some {| self := s; heap := ∅; files := ∅; cv_log := [];
                        fit_log := [] |}
  | Raise _ => None
  end.

Definition lgbm : estimator_obj :=
  {| ctor := LGBMClassifier; params := lgbm_classifier_args VNone;
     fitted := None |}.

(** An instance that went through [__init__] (tables already scaled),
    [base_model('lightGBM')] and [set_hyperparameters()], written out. *)
Definition prepared : world :=
  {| self := {| path_to_save := "out"; sample_train := train;
                sample_test := test; RFE_features := ["a"; "b"];
                target := "y"; problem := "classification";
                estimator := Some 0%nat;
                boosting_method := Some "lightGBM";
                space := Some the_space;
                hyperparameters := Some the_hyperparameters;
                optimization_method := None; opt := None; values := None;
                model := None |};
     heap := {[ 0%nat := lgbm ]}; files := ∅; cv_log := []; fit_log := [] |}.

(** An instance on which no estimator was built: [__init__] and
    [set_hyperparameters()] only. *)
Definition unbuilt : world :=
  {| self := {| path_to_save := "out"; sample_train := train;
                sample_test := test; RFE_features := ["a"; "b"];
                target := "y"; problem := "classification";
                estimator := None; boosting_method := None;
                space := Some the_space;
                hyperparameters := Some the_hyperparameters;
                optimization_method := None; opt := None; values := None;
                model := None |};
     heap := ∅; files := ∅; cv_log := []; fit_log := [] |}.

(** The prepared instance, but of a problem kind that is neither
    ['classification'] nor ['regression']. *)
Definition ranking : world :=
  {| self := {| path_to_save := "out"; sample_train := train;
                sample_test := test; RFE_features := ["a"; "b"];
                target := "y"; problem := "ranking";
                estimator := Some 0%nat;
                boosting_method := Some "lightGBM";
                space := Some the_space;
                hyperparameters := Some the_hyperparameters;
                optimization_method := None; opt := None; values := None;
                model := None |};
     heap := {[ 0%nat := lgbm ]}; files := ∅; cv_log := []; fit_log := [] |}.

(** The prepared instance after the caller dropped the last name from
    [self.hyperparameters]. *)
Definition short_names : world :=
  {| self := {| path_to_save := "out"; sample_train := train;
                sample_test := test; RFE_features := ["a"; "b"];
                target := "y"; problem := "classification";
                estimator := Some 0%nat;
                boosting_method := Some "lightGBM";
                space := Some the_space;
                hyperparameters := Some ["learning_rate"; "n_estimators"];
                optimization_method := None; opt := None; values := None;
                model := None |};
     heap := {[ 0%nat := lgbm ]}; files := ∅; cv_log := []; fit_log := [] |}.

(** A searched instance after the caller pointed [self.target] at ["t"],
    which is not a column of the train table. *)
Definition no_target : world :=
  {| self := {| path_to_save := "out"; sample_train := train;
                sample_test := test; RFE_features := ["a"; "b"];
                target := "t"; problem := "classification";
                estimator := Some 0%nat;
                boosting_method := Some "lightGBM";
                space := Some the_space;
                hyperparameters := Some the_hyperparameters;
                optimization_method := Some "random_search";
                opt := Some {| x := default_point; x_iters := [default_point];
                               func_vals := [] |};
                values := Some default_point;
                model := None |};
     heap := {[ 0%nat := lgbm ]}; files := ∅; cv_log := []; fit_log := [] |}.

(** Plotting functions that draw and save without complaint. *)
#[export] Instance plotter : Plotter := {
  plot_convergence := fun _ _ => Return tt;
  plot_objective := fun _ _ => Return tt;
  plot_evaluations := fun _ => Return tt;
  save_figure := fun _ => Return tt
}.

(** The prepared instance after [run('bayesian', n_calls=10)]. *)
Definition searched_bayesian : world := (run "bayesian" 10 None prepared).2.

(** The prepared instance after [run('random_search', n_calls=10)]. *)
Definition searched : world := (run "random_search" 10 None prepared).2.

(** The instance after [__init__] on the tables above. *)
Definition fresh_world (prob : string) : option world :=
  boot (__init__ "out" train test "y" ["a"; "b"] false prob None).

(** The same, after [base_model] and [set_hyperparameters]. *)
Definition ready_world (prob boosting : string) : option world :=
  w ← fresh_world prob;
  let w1 := (base_model boosting ∅ w).2 in
  Some (set_hyperparameters w1).2.

End Stub.

(** * Properties *)

(** ** Tables *)

Lemma select_length df cols X :
  select df cols = Return X -> length X = length cols.
Proof.
  revert X. induction cols as [|c cs IH]; intros X; simpl.
  - intros [= <-]. reflexivity.
  - destruct (df !! c) as [v|]; [|discriminate].
    destruct (select df cs) as [m|e]; simpl; [|discriminate].
    intros [= <-]. simpl. f_equal. apply IH. reflexivity.
Qed.

Lemma select_lookup df cols X i f :
  select df cols = Return X -> cols !! i = Some f -> X !! i = df !! f /\ is_Some (df !! f).
Proof.
  revert X i. induction cols as [|c cs IH]; intros X i; simpl.
  - intros _ Hi. destruct i; discriminate.
  - destruct (df !! c) as [v|] eqn:Hc; [|discriminate].
    destruct (select df cs) as [m|e]; simpl; [|discriminate].
    intros [= <-]. destruct i as [|i]; simpl.
    + intros [= <-]. rewrite Hc. eauto.
    + intros Hi. apply (IH m i); [reflexivity | exact Hi].
Qed.

Lemma select_missing df cols f :
  f ∈ cols -> df !! f = None -> raises (select df cols).
Proof.
  intros Hin Hf. induction Hin as [f cs | f c cs _ IH]; simpl.
  - rewrite Hf. eexists. reflexivity.
  - destruct (df !! c); [|eexists; reflexivity].
    destruct (IH Hf) as [e ->]. eexists. reflexivity.
Qed.

Lemma assign_lookup_notin df cols m f :
  f ∉ cols -> assign df cols m !! f = df !! f.
Proof.
  unfold assign. revert df m. induction cols as [|c cs IH]; intros df m Hf.
  - reflexivity.
  - destruct m as [|v m]; [reflexivity|]. simpl.
    rewrite IH by set_solver.
    apply lookup_insert_ne. set_solver.
Qed.


(** ** Data Preparation *)

Section Preparation.
Context `{Scaler}.

(** What a successful scaling did, step by step. *)
Lemma scale_features_inv train test features sc tr te :
  scale_features train test features = Return (sc, tr, te) ->
  exists Xtrain Ttrain Xtest Ttest,
    select train features = Return Xtrain /\
    scaler_fit Xtrain = Return sc /\
    scaler_transform sc Xtrain = Return Ttrain /\
    tr = assign train features Ttrain /\
    select test features = Return Xtest /\
    scaler_transform sc Xtest = Return Ttest /\
    te = assign test features Ttest.
Proof.
  unfold scale_features, fit_transform.
  destruct (select train features) as [Xtrain|] eqn:E1; simpl; [|discriminate].
  destruct (scaler_fit Xtrain) as [p|] eqn:E2; simpl; [|discriminate].
  destruct (scaler_transform p Xtrain) as [Ttrain|] eqn:E3; simpl; [|discriminate].
  destruct (select test features) as [Xtest|] eqn:E4; simpl; [|discriminate].
  destruct (scaler_transform p Xtest) as [Ttest|] eqn:E5; simpl; [|discriminate].
  intros [= <- <- <-]. exists Xtrain, Ttrain, Xtest, Ttest.
  repeat split; assumption || reflexivity.
Qed.

Lemma init_unscaled_inv path train test tgt features prob est s :
  __init__ path train test tgt features false prob est = Return s ->
  exists sc,
    scale_features train test features = Return (sc, sample_train s, sample_test s).
Proof.
  unfold __init__.
  destruct (scale_features train test features) as [[[sc tr] te]|]; simpl;
    [|discriminate].
  intros [= <-]. exists sc. reflexivity.
Qed.

(** C4.  Two constructions with [scaled = False] on the same train table
    and any two test tables fit the same scaler (on the train feature
    columns alone) and leave the same transformed train table; each test
    table is only transformed, with those parameters. *)
Theorem scaler_fit_on_train_only path train test1 test2 tgt features prob est s1 s2 :
  __init__ path train test1 tgt features false prob est = Return s1 ->
  __init__ path train test2 tgt features false prob est = Return s2 ->
  exists sc Xtrain,
    select train features = Return Xtrain /\
    scaler_fit Xtrain = Return sc /\
    scale_features train test1 features = Return (sc, sample_train s1, sample_test s1) /\
    scale_features train test2 features = Return (sc, sample_train s2, sample_test s2) /\
    sample_train s1 = sample_train s2 /\
    (exists X1 T1, select test1 features = Return X1 /\
                   scaler_transform sc X1 = Return T1 /\
                   sample_test s1 = assign test1 features T1) /\
    (exists X2 T2, select test2 features = Return X2 /\
                   scaler_transform sc X2 = Return T2 /\
                   sample_test s2 = assign test2 features T2).
Proof.
  intros H1 H2.
  destruct (init_unscaled_inv _ _ _ _ _ _ _ _ H1) as [sc1 E1].
  destruct (init_unscaled_inv _ _ _ _ _ _ _ _ H2) as [sc2 E2].
  destruct (scale_features_inv _ _ _ _ _ _ E1)
    as (Xa & Ta & X1 & T1 & Sa & Fa & Tra & Aa & S1 & Tr1 & A1).
  destruct (scale_features_inv _ _ _ _ _ _ E2)
    as (Xb & Tb & X2 & T2 & Sb & Fb & Trb & Ab & S2 & Tr2 & A2).
  assert (Xb = Xa) by congruence. subst Xb.
  assert (sc2 = sc1) by congruence. subst sc2.
  assert (Tb = Ta) by congruence. subst Tb.
  exists sc1, Xa. repeat split; try assumption.
  - congruence.
  - exists X1, T1. auto.
  - exists X2, T2. auto.
Qed.

(** C8, as the code has it.  With [scaled = False] a feature label that
    is not a column of the train table, or not a column of the test table,
    makes the construction fail. *)
Theorem missing_feature_fails_when_scaling path train test tgt features prob est f :
  f ∈ features ->
  train !! f = None \/ test !! f = None ->
  raises (__init__ path train test tgt features false prob est).
Proof.
  intros Hin Hmiss. unfold __init__, scale_features.
  destruct (select train features) as [Xtrain|e] eqn:Etrain; simpl;
    [|eexists; reflexivity].
  destruct (fit_transform Xtrain) as [ft|e]; simpl; [|eexists; reflexivity].
  destruct Hmiss as [Hf|Hf].
  - destruct (select_missing _ _ _ Hin Hf) as [e He]. congruence.
  - destruct (select_missing _ _ _ Hin Hf) as [e ->]. simpl. eexists. reflexivity.
Qed.
End Preparation.

(** Witness of C4: the tables of [Stub], with two different test tables. *)
Lemma scaler_fit_on_train_only_witness :
  exists s1 s2,
    __init__ "out" Stub.train Stub.test "y" ["a"; "b"] false "regression" None = Return s1 /\
    __init__ "out" Stub.train Stub.test' "y" ["a"; "b"] false "regression" None = Return s2 /\
    Stub.test <> Stub.test' /\
    sample_train s1 = sample_train s2.
Proof.
  destruct (__init__ "out" Stub.train Stub.test "y" ["a"; "b"] false "regression" None)
    as [s1|e] eqn:E1; [|vm_compute in E1; discriminate E1].
  destruct (__init__ "out" Stub.train Stub.test' "y" ["a"; "b"] false "regression" None)
    as [s2|e] eqn:E2; [|vm_compute in E2; discriminate E2].
  exists s1, s2.
  split; [reflexivity|]. split; [reflexivity|].
  split.
  - intros E. apply (f_equal (fun t : table => t !! "a")) in E. vm_compute in E.
    discriminate E.
  - destruct (scaler_fit_on_train_only "out" Stub.train Stub.test Stub.test' "y"
                ["a"; "b"] "regression" None s1 s2 E1 E2)
      as (sc & X & _ & _ & _ & _ & E & _).
    exact E.
Defined.

(** C8 as stated fails: a construction with [scaled = True] succeeds though
    the feature ["x"] and the target ["y"] are columns of neither table; and
    with [scaled = False] it succeeds though the target is a column of
    neither table. *)
Lemma construction_accepts_missing_columns :
  (∅ : table) !! "x" = None /\ (∅ : table) !! "y" = None /\
  (exists s, __init__ "out" ∅ ∅ "y" ["x"] true "regression" None = Return s) /\
  Stub.train !! "t" = None /\ Stub.test !! "t" = None /\
  (exists s, __init__ "out" Stub.train Stub.test "t" ["a"; "b"] false "regression" None
             = Return s).
Proof.
  split; [reflexivity|]. split; [reflexivity|].
  split; [eexists; reflexivity|].
  split; [reflexivity|]. split; [reflexivity|].
  eexists. vm_compute. reflexivity.
Qed.

(** Witness of the amended C8. *)
Lemma missing_feature_fails_when_scaling_witness :
  raises (__init__ "out" Stub.train Stub.test "y" ["a"; "z"] false "regression" None).
Proof.
  apply (missing_feature_fails_when_scaling "out" Stub.train Stub.test "y"
           ["a"; "z"] "regression" None "z").
  - set_solver.
  - left. reflexivity.
Defined.

(** ** The min-max scaler *)













Lemma minmax_transform_columns_length ps X T :
  minmax_transform_columns ps X = Return T -> length T = length X.
Proof.
  revert X T. induction ps as [|p ps IH]; intros [|c cs] T; simpl; try discriminate.
  - intros [= <-]. reflexivity.
  - destruct c as [|a c]; [discriminate|].
    destruct (minmax_transform_columns ps cs) as [m|] eqn:E; simpl; [|discriminate].
    intros [= <-]. simpl. f_equal. apply (IH cs m E).
Qed.

Lemma minmax_transform_length ps X T :
  minmax_transform ps X = Return T -> length T = length X.
Proof.
  unfold minmax_transform. destruct X as [|c0 cs]; [discriminate|].
  apply minmax_transform_columns_length.
Qed.






(** ** The method monad *)

Lemma bind_inv {A B} (m : M A) (f : A -> M B) w r w' :
  (m ≫= f) w = (r, w') ->
  (exists a w1, m w = (Return a, w1) /\ f a w1 = (r, w')) \/
  (exists e, m w = (Raise e, w') /\ r = Raise e).
Proof.
  unfold mbind, M_bind. destruct (m w) as [[a|e] w1].
  - intros Hf. left. exists a, w1. auto.
  - intros [= <- <-]. right. exists e. auto.
Qed.

(** ** Trainer: ordering *)

(** C9.  While [self.values] does not exist (no search has stored its
    result), [train_model] raises [AttributeError] at line 325: nothing is
    fitted, no estimator is touched, nothing is scored or written. *)
Theorem train_model_before_search w :
  values (self w) = None ->
  exists attr w',
    train_model w = (Raise (AttributeError attr), w') /\
    (attr = "hyperparameters" \/ attr = "values") /\
    heap w' = heap w /\ fit_log w' = fit_log w /\
    cv_log w' = cv_log w /\ files w' = files w.
Proof.
  intros Hv. unfold train_model.
  unfold mbind, M_bind, read, update_self, getattr. simpl.
  destruct (hyperparameters (self w)) as [hp|]; simpl.
  - rewrite Hv. exists "values". eexists. split; [reflexivity|]. simpl. auto 10.
  - exists "hyperparameters". eexists. split; [reflexivity|]. simpl. auto 10.
Qed.

(** Witness of C9: the instance right after [__init__], [base_model] and
    [set_hyperparameters]. *)
Lemma train_model_before_search_witness :
  exists w attr w',
    Stub.ready_world "classification" "lightGBM" = Some w /\
    values (self w) = None /\
    train_model w = (Raise (AttributeError attr), w') /\
    fit_log w' = fit_log w.
Proof.
  destruct (Stub.ready_world "classification" "lightGBM") as [w|] eqn:E;
    [|vm_compute in E; discriminate E].
  assert (Hv : values (self w) = None).
  { assert (Hc : (fun w => values (self w)) <$>
                 Stub.ready_world "classification" "lightGBM" = Some None)
      by (vm_compute; reflexivity).
    rewrite E in Hc. injection Hc as Hc. exact Hc. }
  destruct (train_model_before_search w Hv) as (attr & w' & Ht & _ & _ & Hfit & _).
  exists w, attr, w'. repeat split; assumption.
Defined.

(** ** Hyperparameter Search: the strategy name *)

Lemma opt_method_of_unknown method :
  method ∉ known_strategies -> opt_method_of method = None.
Proof.
  intros Hn. unfold opt_method_of.
  repeat match goal with
  | |- context [String.eqb method ?s] =>
      destruct (String.eqb method s) eqn:E;
        [apply String.eqb_eq in E; subst method; exfalso; apply Hn;
         unfold known_strategies; set_solver | clear E]
  end.
  reflexivity.
Qed.

Section SearchProperties.
Context `{Collaborators}.

(** C7.  A strategy name outside the four known ones makes [run] raise
    before the minimizer, and hence the objective and the scorer, is ever
    called: the local [opt_method] is unbound at line 224 (or, when
    [set_hyperparameters] was never called, [self.space] is missing at
    line 179).  No score was computed, no estimator touched, nothing
    fitted or written. *)
Theorem unknown_strategy_fails_fast method n_calls x0 w :
  method ∉ known_strategies ->
  exists e w',
    run method n_calls x0 w = (Raise e, w') /\
    e = match space (self w) with
        | Some _ => UnboundLocalError "opt_method"
        | None => AttributeError "space"
        end /\
    cv_log w' = cv_log w /\ heap w' = heap w /\
    fit_log w' = fit_log w /\ files w' = files w.
Proof.
  intros Hn. unfold run.
  unfold mbind, M_bind, read, update_self, getattr, raise. simpl.
  destruct (space (self w)) as [dims|]; simpl.
  - rewrite (opt_method_of_unknown _ Hn). simpl.
    eexists _, _. split; [reflexivity|]. simpl. auto 10.
  - eexists _, _. split; [reflexivity|]. simpl. auto 10.
Qed.
End SearchProperties.

(** Witness of C7: the misspelt name ["gradient_boosted_trees"] on the
    prepared instance; the scorer log stays empty. *)
Lemma unknown_strategy_fails_fast_witness :
  ("gradient_boosted_trees" ∉ known_strategies) /\
  exists w w',
    Stub.ready_world "classification" "lightGBM" = Some w /\
    run (H := Stub.collaborators) "gradient_boosted_trees" 100 None w
      = (Raise (UnboundLocalError "opt_method"), w') /\
    cv_log w' = [].
Proof.
  assert (Hn : "gradient_boosted_trees" ∉ known_strategies).
  { unfold known_strategies. intros Hin.
    repeat (apply elem_of_cons in Hin as [Hin|Hin]; [discriminate Hin|]).
    inversion Hin. }
  split; [exact Hn|].
  destruct (Stub.ready_world "classification" "lightGBM") as [w|] eqn:E;
    [|vm_compute in E; discriminate E].
  assert (Hc : (fun w => (space (self w), cv_log w)) <$>
               Stub.ready_world "classification" "lightGBM"
               = Some (Some the_space, []))
    by (vm_compute; reflexivity).
  rewrite E in Hc. injection Hc as Hs Hl.
  destruct (unknown_strategy_fails_fast (H := Stub.collaborators)
              "gradient_boosted_trees" 100 None w Hn)
    as (e & w' & Hr & He & Hcv & _).
  rewrite Hs in He. subst e.
  exists w, w'. split; [reflexivity|]. split; [exact Hr|]. congruence.
Defined.

(** ** Model Selector *)

(** C2 (the defect).  For a regression problem the XGBoost branch of
    [base_model] calls the classifier constructor, with the regression loss
    as its objective; whatever objective label the caller passed is
    ignored. *)
Theorem xgboost_regression_builds_classifier kwargs w :
  problem (self w) = "regression" ->
  exists l e w',
    base_model "XGBoost" kwargs w = (Return (Some l), w') /\
    estimator (self w') = Some l /\
    heap w' !! l = Some e /\
    ctor e = XGBClassifier /\
    params e = xgb_classifier_args (VStr "reg:squarederror").
Proof.
  intros Hp. unfold base_model, construct, new.
  unfold mbind, M_bind, read, update_self, getattr. simpl.
  rewrite Hp. simpl.
  eexists _, _, _. split; [reflexivity|]. simpl.
  split; [reflexivity|]. split; [apply lookup_insert_eq|].
  split; reflexivity.
Qed.

(** Its witness: the instance of [Stub], right after [__init__]. *)
Lemma xgboost_regression_builds_classifier_witness :
  exists w l e w',
    Stub.fresh_world "regression" = Some w /\
    base_model "XGBoost" {[ "objective" := VStr "binary" ]} w = (Return (Some l), w') /\
    heap w' !! l = Some e /\
    ctor e = XGBClassifier.
Proof.
  destruct (Stub.fresh_world "regression") as [w|] eqn:E;
    [|vm_compute in E; discriminate E].
  assert (Hp : problem (self w) = "regression").
  { assert (Hc : (fun w => problem (self w)) <$> Stub.fresh_world "regression"
                 = Some "regression") by (vm_compute; reflexivity).
    rewrite E in Hc. injection Hc as Hc. exact Hc. }
  destruct (xgboost_regression_builds_classifier {[ "objective" := VStr "binary" ]} w Hp)
    as (l & e & w' & Hb & _ & Hl & Hc & _).
  exists w, l, e, w'. auto.
Defined.

(** The classification branch of the same family calls the same
    constructor. *)
Lemma xgboost_classification_builds_classifier kwargs w :
  problem (self w) = "classification" ->
  exists l e w',
    base_model "XGBoost" kwargs w = (Return (Some l), w') /\
    heap w' !! l = Some e /\
    ctor e = XGBClassifier /\
    params e = xgb_classifier_args (kwargs_get kwargs "objective").
Proof.
  intros Hp. unfold base_model, construct, new.
  unfold mbind, M_bind, read, update_self, getattr. simpl.
  rewrite Hp. simpl.
  eexists _, _, _. split; [reflexivity|]. simpl.
  split; [apply lookup_insert_eq|]. split; reflexivity.
Qed.

(** The lightGBM family does have its regressor, built without looking at
    the objective label. *)
Lemma lightgbm_regression_builds_regressor kwargs w :
  problem (self w) = "regression" ->
  exists l e w',
    base_model "lightGBM" kwargs w = (Return (Some l), w') /\
    heap w' !! l = Some e /\
    ctor e = LGBMRegressor /\
    params e = lgbm_regressor_args.
Proof.
  intros Hp. unfold base_model, construct, new.
  unfold mbind, M_bind, read, update_self, getattr. simpl.
  rewrite Hp. simpl.
  eexists _, _, _. split; [reflexivity|]. simpl.
  split; [apply lookup_insert_eq|]. split; reflexivity.
Qed.

(** ** Inversion of the primitive steps *)

Lemma getattr_inv {A} name (f : optimization -> option A) w r w1 :
  getattr name f w = (r, w1) ->
  w1 = w /\
  match r with
  | Return a => f (self w) = Some a
  | Raise e => f (self w) = None /\ e = AttributeError name
  end.
Proof.
  unfold getattr. destruct (f (self w)); intros [= <- <-]; auto.
Qed.

Lemma read_inv {A} (f : optimization -> A) w r w1 :
  read f w = (r, w1) -> w1 = w /\ r = Return (f (self w)).
Proof. unfold read. intros [= <- <-]. auto. Qed.

Lemma update_self_inv f w r w1 :
  update_self f w = (r, w1) ->
  r = Return tt /\ self w1 = f (self w) /\ heap w1 = heap w /\
  files w1 = files w /\ cv_log w1 = cv_log w /\ fit_log w1 = fit_log w.
Proof. unfold update_self. intros [= <- <-]. simpl. auto 10. Qed.

Lemma index_inv {A} (l : list A) i w r w1 :
  index l i w = (r, w1) ->
  w1 = w /\
  match r with
  | Return a => l !! i = Some a
  | Raise _ => l !! i = None
  end.
Proof.
  unfold index. destruct (l !! i); intros [= <- <-]; auto.
Qed.

Ltac bind_step H :=
  let a := fresh "a" in
  let w := fresh "w" in
  let e := fresh "e" in
  let Hm := fresh "Hm" in
  let Hr := fresh "Hr" in
  apply bind_inv in H as [(a & w & Hm & H) | (e & Hm & Hr)].

Tactic Notation "bind_ok" hyp(H) "as" ident(a) ident(w) ident(Hm) :=
  apply bind_inv in H as [(a & w & Hm & H) | (? & ? & ?)]; [|discriminate].

Ltac prim_inv :=
  match goal with
  | H : getattr _ _ _ = (_, _) |- _ =>
      apply getattr_inv in H as [? H]; subst
  | H : read _ _ = (_, _) |- _ =>
      apply read_inv in H as [? H]; subst
  | H : index _ _ _ = (_, _) |- _ =>
      apply index_inv in H as [? H]; subst
  end.

(** ** Hyperparameter Search: what the reporting loop leaves *)

(** The loop of lines 236-238 only appends to [self.values]. *)
Lemma values_only_refl w : values_only w w.
Proof. unfold values_only. auto 10. Qed.

Lemma report_values_only indices w r w' :
  report indices w = (r, w') -> values_only w w'.
Proof.
  revert w. induction indices as [|i rest IH]; intros w Hrep; simpl in Hrep.
  - injection Hrep as <- <-. apply values_only_refl.
  - bind_step Hrep; [|prim_inv; apply values_only_refl].
    prim_inv.
    bind_step Hrep; [|prim_inv; apply values_only_refl].
    prim_inv.
    bind_step Hrep; [|prim_inv; apply values_only_refl].
    prim_inv.
    bind_step Hrep; [|prim_inv; apply values_only_refl].
    prim_inv.
    bind_step Hrep; [|prim_inv; apply values_only_refl].
    prim_inv.
    bind_step Hrep.
    + apply update_self_inv in Hm4 as (_ & Hs & Hh & Hf & Hc & Hfl).
      destruct (IH _ Hrep) as (Hh' & Hf' & Hc' & Hfl' & Hs').
      unfold values_only. repeat split; try congruence.
      right. destruct Hs' as [Hs'|[vs Hs']]; rewrite Hs', Hs; eexists; reflexivity.
    + apply update_self_inv in Hm4 as (Hr' & _). congruence.
Qed.

(** A completed loop has appended the entries of [self.opt.x] at the
    indices it went through. *)
Lemma report_collects n k w o vs w' :
  opt (self w) = Some o -> values (self w) = Some vs ->
  report (seq k n) w = (Return tt, w') ->
  values (self w') = Some (vs ++ take n (drop k (x o)))%list.
Proof.
  revert k w vs. induction n as [|n IH]; intros k w vs Ho Hv Hrep; simpl in Hrep.
  - injection Hrep as <-. rewrite Hv. simpl. rewrite app_nil_r. reflexivity.
  - bind_ok Hrep as hp w1 H1. apply getattr_inv in H1 as [-> H1].
    bind_ok Hrep as name w1 H2. apply index_inv in H2 as [-> H2].
    bind_ok Hrep as o' w1 H3. apply getattr_inv in H3 as [-> H3].
    bind_ok Hrep as v w1 H4. apply index_inv in H4 as [-> H4].
    bind_ok Hrep as vs' w1 H5. apply getattr_inv in H5 as [-> H5].
    bind_ok Hrep as u w1 H6. apply update_self_inv in H6 as (_ & Hs & _).
    assert (o' = o) by congruence. subst o'.
    assert (vs' = vs) by congruence. subst vs'.
    rewrite (IH (S k) w1 (vs ++ [v])%list);
      [| rewrite Hs; exact Ho | rewrite Hs; reflexivity | exact Hrep].
    rewrite (drop_S _ _ _ H4). simpl. rewrite <- app_assoc. reflexivity.
Qed.

(** ** Hyperparameter Search: a completed run *)

Section CompletedRun.
Context `{Collaborators}.

(** What a run that returned went through: the strategy was a known one,
    its minimizer returned a result [r] in a state [w1], and from there
    [run] stored [r] and the best point and wrote one file. *)
Lemma run_completed method n_calls x0 w w' :
  run method n_calls x0 w = (Return tt, w') ->
  exists dims f r w0 w1,
    space (self w) = Some dims /\
    opt_method_of method = Some f /\
    self w0 = set_optimization_method method (self w) /\
    heap w0 = heap w /\ cv_log w0 = cv_log w /\
    minimize f (objective dims) dims n_calls x0 w0 = (Return r, w1) /\
    self w' = set_values (x r) (set_opt r (self w1)) /\
    heap w' = heap w1 /\ cv_log w' = cv_log w1 /\ fit_log w' = fit_log w1 /\
    files w' = <[os_path_join (path_to_save (self w1)) (artifact_name (target (self w1)))
                 := PickledFunction f]> (files w1).
Proof.
  intros Hrun. unfold run in Hrun.
  bind_ok Hrun as dims w0 H1. apply getattr_inv in H1 as [-> H1].
  bind_ok Hrun as u1 w0 H2.
  apply update_self_inv in H2 as (_ & Hs0 & Hh0 & Hf0 & Hc0 & Hl0).
  bind_ok Hrun as method' wa H3. apply getattr_inv in H3 as [-> H3].
  rewrite Hs0 in H3. simpl in H3. injection H3 as <-.
  bind_ok Hrun as f wa H4.
  destruct (opt_method_of method) as [f'|] eqn:Hf; [|discriminate H4].
  injection H4 as <- <-.
  bind_ok Hrun as dims' wa H5. apply getattr_inv in H5 as [-> H5].
  rewrite Hs0 in H5. simpl in H5.
  assert (dims' = dims) by congruence. subst dims'.
  bind_ok Hrun as r w1 H6.
  bind_ok Hrun as u2 w2 H7.
  apply update_self_inv in H7 as (_ & Hs2 & Hh2 & Hf2 & Hc2 & Hl2).
  bind_ok Hrun as u3 w3 H8.
  apply update_self_inv in H8 as (_ & Hs3 & Hh3 & Hf3 & Hc3 & Hl3).
  bind_ok Hrun as o wa H9. apply getattr_inv in H9 as [-> H9].
  rewrite Hs3, Hs2 in H9. simpl in H9. injection H9 as <-.
  bind_ok Hrun as u4 w4 H10. destruct u4.
  pose proof (report_values_only _ _ _ _ H10) as (Hh4 & Hf4 & Hc4 & Hl4 & Hs4).
  assert (Hv4 : values (self w4) = Some (x r)).
  { rewrite (report_collects (length (x r)) 0 w3 r [] w4); [| rewrite Hs3, Hs2; reflexivity
                                               | rewrite Hs3; reflexivity | exact H10].
    rewrite drop_0, firstn_all. reflexivity. }
  assert (Hself : self w4 = set_values (x r) (set_opt r (self w1))).
  { destruct Hs4 as [Hs4|[vs Hs4]].
    - rewrite Hs4, Hs3, Hs2 in Hv4. simpl in Hv4. injection Hv4 as Hv4.
      rewrite Hs4, Hs3, Hs2, <- Hv4. reflexivity.
    - rewrite Hs4 in Hv4. simpl in Hv4. injection Hv4 as ->.
      rewrite Hs4, Hs3, Hs2. reflexivity. }
  bind_ok Hrun as dir wa H11. apply read_inv in H11 as [-> H11].
  injection H11 as ->.
  bind_ok Hrun as tgt wa H12. apply read_inv in H12 as [-> H12].
  injection H12 as ->.
  unfold dump in Hrun. injection Hrun as <-.
  exists dims, f', r, w0, w1. simpl.
  rewrite Hself. simpl.
  repeat split; try assumption; try congruence.
Qed.

(** C1 (the defect).  The file that a completed run writes is named after
    the target column and lies under the output directory, but what [dump]
    is handed at line 240 is the local [opt_method], the minimizer
    function, and not the result [self.opt] with its evaluated points. *)
Theorem run_pickles_the_minimizer method n_calls x0 w w' :
  run method n_calls x0 w = (Return tt, w') ->
  exists f r,
    opt_method_of method = Some f /\
    opt (self w') = Some r /\
    files w' !! os_path_join (path_to_save (self w'))
                             ("optimization_data_" ++ target (self w') ++ ".pkl")
      = Some (PickledFunction f) /\
    files w' !! os_path_join (path_to_save (self w'))
                             ("optimization_data_" ++ target (self w') ++ ".pkl")
      <> Some (PickledResult r).
Proof.
  intros Hrun.
  destruct (run_completed _ _ _ _ _ Hrun)
    as (dims & f & r & w0 & w1 & _ & Hf & _ & _ & _ & _ & Hs & _ & _ & _ & Hfiles).
  exists f, r. rewrite Hs, Hfiles. simpl.
  fold (artifact_name (target (self w1))).
  rewrite lookup_insert_eq.
  repeat split; [exact Hf | discriminate].
Qed.
End CompletedRun.

(** Witness of C1: a random search on the prepared instance. *)
Lemma run_pickles_the_minimizer_witness :
  exists w w' r,
    Stub.ready_world "classification" "lightGBM" = Some w /\
    run (H := Stub.collaborators) "random_search" 10 None w = (Return tt, w') /\
    opt (self w') = Some r /\
    files w' !! os_path_join (path_to_save (self w'))
                             ("optimization_data_" ++ target (self w') ++ ".pkl")
      = Some (PickledFunction dummy_minimize).
Proof.
  destruct (Stub.ready_world "classification" "lightGBM") as [w|] eqn:E;
    [|vm_compute in E; discriminate E].
  assert (Hc : (fun w => (run (H := Stub.collaborators) "random_search" 10 None w).1)
               <$> Stub.ready_world "classification" "lightGBM" = Some (Return tt))
    by (vm_compute; reflexivity).
  rewrite E in Hc. injection Hc as Hc.
  destruct (run (H := Stub.collaborators) "random_search" 10 None w) as [o w'] eqn:Hrun.
  simpl in Hc. subst o.
  destruct (run_pickles_the_minimizer (H := Stub.collaborators) _ _ _ _ _ Hrun)
    as (f & r & Hf & Ho & Hfile & _).
  injection Hf as <-.
  exists w, w', r. auto.
Defined.

(** ** Hyperparameter Search: the objective *)

Section Objective.
Context `{Collaborators}.

(** C3.  On a candidate point of the right length, with an estimator in
    place and the feature and target columns present, the objective sets
    the candidate on the estimator, asks the scorer once for 5 folds on
    the train features and the train target, under ["roc_auc"] for a
    classification and ["neg_root_mean_squared_error"] for a regression,
    and returns the negated mean of the scores. *)
Theorem objective_is_negated_mean dims point w l e X y sc :
  length point = length dims ->
  estimator (self w) = Some l ->
  heap w !! l = Some e ->
  select (sample_train (self w)) (RFE_features (self w)) = Return X ->
  sample_train (self w) !! target (self w) = Some y ->
  (problem (self w) = "classification" /\ sc = "roc_auc") \/
  (problem (self w) = "regression" /\ sc = "neg_root_mean_squared_error") ->
  let e' := with_params (named_args dims point) e in
  let scores := cross_val_score e' X y 5 (-1) sc in
  exists w',
    objective dims point w = (Return (- np_mean scores)%Q, w') /\
    self w' = self w /\
    heap w' = <[l := e']> (heap w) /\
    cv_log w' = (cv_log w ++ [{| cv_estimator := e'; cv_X := X; cv_y := y;
                                 cv_folds := 5; cv_n_jobs := -1;
                                 cv_scoring := sc |}])%list /\
    (forall a b c d f, scores = [a; b; c; d; f] ->
       (- np_mean scores == - ((a + b + c + d + f) / 5))%Q).
Proof.
  intros Hlen Hest Hheap Hsel Hy Hprob e' scores.
  unfold objective. rewrite Hlen, Nat.eqb_refl. simpl.
  unfold mbind, M_bind, read, set_params, deref, store, lift, scored, getitem.
  simpl. rewrite Hest. unfold mbind, M_bind. simpl. rewrite Hheap. simpl.
  rewrite Hest. simpl.
  rewrite lookup_insert_eq. simpl. rewrite Hsel. simpl. rewrite Hy. simpl.
  unfold mret, M_ret, raise.
  assert (Hfive : forall a b c d f, scores = [a; b; c; d; f] ->
            (- np_mean scores == - ((a + b + c + d + f) / 5))%Q).
  { intros a b c d f ->. unfold np_mean. simpl. field. }
  destruct Hprob as [[Hp ->]|[Hp ->]]; rewrite Hp; simpl;
    (eexists; split; [reflexivity|]; simpl; auto 10).
Qed.
End Objective.


(** Witness of C3: the default point on the prepared instance of [Stub];
    the five stub scores have mean 4/5. *)
Lemma objective_is_negated_mean_witness :
  exists w' X y,
    objective (H := Stub.collaborators) the_space Stub.default_point Stub.prepared
      = (Return (- np_mean Stub.fold_scores)%Q, w') /\
    (- np_mean Stub.fold_scores == - (4 # 5))%Q /\
    cv_log w' = [{| cv_estimator := with_params (named_args the_space Stub.default_point)
                                      Stub.lgbm;
                    cv_X := X; cv_y := y; cv_folds := 5; cv_n_jobs := -1;
                    cv_scoring := "roc_auc" |}].
Proof.
  destruct (objective_is_negated_mean (H := Stub.collaborators)
              the_space Stub.default_point Stub.prepared 0%nat Stub.lgbm
              [[0; 5; 10]; [2; 2; 2]]%Q [0; 1; 1]%Q "roc_auc")
    as (w' & Hobj & _ & _ & Hlog & _).
  - reflexivity.
  - reflexivity.
  - reflexivity.
  - vm_compute. reflexivity.
  - reflexivity.
  - left. split; reflexivity.
  - exists w', [[0; 5; 10]; [2; 2; 2]]%Q, [0; 1; 1]%Q.
    split; [exact Hobj|]. split; [reflexivity | exact Hlog].
Defined.

(** ** Estimator objects: what [set_params] and [fit] touch *)

Lemma same_outside_refl names h : same_outside names h h.
Proof. intros l e Hl. exists e. auto. Qed.

Lemma same_outside_trans names h1 h2 h3 :
  same_outside names h1 h2 -> same_outside names h2 h3 -> same_outside names h1 h3.
Proof.
  intros H12 H23 l e Hl.
  destruct (H12 l e Hl) as (e2 & Hl2 & Hc2 & Hp2).
  destruct (H23 l e2 Hl2) as (e3 & Hl3 & Hc3 & Hp3).
  exists e3. split; [exact Hl3|]. split; [congruence|].
  intros p Hp. rewrite (Hp3 p Hp). apply Hp2, Hp.
Qed.

Lemma same_outside_insert names h l e e' :
  h !! l = Some e -> ctor e' = ctor e ->
  (forall p, p ∉ names -> params e' !! p = params e !! p) ->
  same_outside names h (<[l := e']> h).
Proof.
  intros Hl Hc Hp l0 e0 Hl0. destruct (decide (l0 = l)) as [->|Hne].
  - exists e'. rewrite lookup_insert_eq. split; [reflexivity|].
    assert (e0 = e) by congruence. subst e0. auto.
  - exists e0. rewrite lookup_insert_ne by congruence. auto.
Qed.

Lemma set_params_inv r kw w res w' :
  set_params r kw w = (res, w') ->
  self w' = self w /\ files w' = files w /\
  cv_log w' = cv_log w /\ fit_log w' = fit_log w /\
  match res with
  | Return _ =>
      exists l e, r = Some l /\ heap w !! l = Some e /\
                  heap w' = <[l := with_params kw e]> (heap w)
  | Raise _ => heap w' = heap w
  end.
Proof.
  unfold set_params, deref, store, mbind, M_bind.
  destruct r as [l|]; [destruct (heap w !! l) as [e|] eqn:Hl|];
    intros [= <- <-]; simpl; repeat split; trivial.
  exists l, e. auto.
Qed.

Lemma fit_inv r X y w res w' :
  fit r X y w = (res, w') ->
  self w' = self w /\ files w' = files w /\ cv_log w' = cv_log w /\
  match res with
  | Return _ =>
      exists l e, r = Some l /\ heap w !! l = Some e /\
                  heap w' = <[l := {| ctor := ctor e; params := params e;
                                      fitted := Some (X, y) |}]> (heap w) /\
                  fit_log w' = (fit_log w ++ [(l, X, y)])%list
  | Raise _ => heap w' = heap w /\ fit_log w' = fit_log w
  end.
Proof.
  unfold fit, deref.
  destruct r as [l|]; [destruct (heap w !! l) as [e|] eqn:Hl|];
    intros [= <- <-]; simpl; repeat split; trivial.
  exists l, e. auto.
Qed.

Lemma deref_inv r attr w res w' :
  deref r attr w = (res, w') ->
  w' = w /\
  match res with
  | Return o => r = Some o.1 /\ heap w !! o.1 = Some o.2
  | Raise _ => True
  end.
Proof.
  unfold deref.
  destruct r as [l|]; [destruct (heap w !! l) as [e|] eqn:Hl|];
    intros [= <- <-]; simpl; auto.
Qed.

Lemma lookup_with_params_other kw e p :
  kw !! p = None -> params (with_params kw e) !! p = params e !! p.
Proof.
  intros Hp. simpl. destruct (params e !! p) as [v|] eqn:E.
  - apply lookup_union_Some_raw. right. auto.
  - apply lookup_union_None. auto.
Qed.

(** The loop of lines 325-326 keeps [self], sets on the estimator objects
    only parameters that are named in the list it walks, and fits
    nothing. *)
Lemma apply_hyperparameters_frame names pairs w res w' :
  (forall p v, (p, v) ∈ pairs -> p ∈ names) ->
  apply_hyperparameters pairs w = (res, w') ->
  self w' = self w /\ files w' = files w /\
  cv_log w' = cv_log w /\ fit_log w' = fit_log w /\
  same_outside names (heap w) (heap w').
Proof.
  revert w. induction pairs as [|[p v] rest IH]; intros w Hnames Hrun; simpl in Hrun.
  - injection Hrun as <- <-. repeat split; trivial. apply same_outside_refl.
  - apply bind_inv in Hrun as [(m & w1 & H1 & Hrun)|(e & H1 & ->)].
    2:{ apply getattr_inv in H1 as [-> _]. repeat split; trivial.
        apply same_outside_refl. }
    apply getattr_inv in H1 as [-> H1].
    apply bind_inv in Hrun as [(u & w1 & H2 & Hrun)|(e & H2 & ->)].
    2:{ apply set_params_inv in H2 as (Hs & Hf & Hc & Hl & Hh).
        repeat split; trivial. rewrite Hh. apply same_outside_refl. }
    apply set_params_inv in H2 as (Hs & Hf & Hc & Hl & (l & e & -> & Hle & Hh)).
    destruct (IH w1) as (Hs' & Hf' & Hc' & Hl' & Hh'); [|exact Hrun|].
    { intros q u' Hq. apply (Hnames q u'). apply elem_of_cons. right. exact Hq. }
    repeat split; try congruence.
    eapply same_outside_trans; [|exact Hh'].
    rewrite Hh. apply (same_outside_insert _ _ _ e); [exact Hle|reflexivity|].
    intros q Hq. apply lookup_with_params_other.
    apply lookup_singleton_ne. intros ->. apply Hq, (Hnames q v).
    apply elem_of_cons. left. reflexivity.
Qed.

(** ** Trainer: the frame *)

(** C10.  Whatever its outcome, [train_model] leaves every estimator object
    with its constructor and with all its parameters other than the three
    searched ones ([learning_rate], [n_estimators], [num_leaves]) as they
    were: random seed, importance accounting, tree depth, objective and any
    other baseline setting of [base_model] are unchanged. *)
Theorem train_model_touches_only_searched w res w' :
  hyperparameters (self w) = Some the_hyperparameters ->
  train_model w = (res, w') ->
  forall l e, heap w !! l = Some e ->
    exists e', heap w' !! l = Some e' /\ ctor e' = ctor e /\
      forall p, p ∉ the_hyperparameters -> params e' !! p = params e !! p.
Proof.
  intros Hhp Hrun. change (same_outside the_hyperparameters (heap w) (heap w')).
  unfold train_model in Hrun.
  apply bind_inv in Hrun as [(est & w1 & H1 & Hrun)|(e & H1 & ->)];
    apply read_inv in H1 as [-> H1]; [|discriminate H1].
  apply bind_inv in Hrun as [(u & w1 & H2 & Hrun)|(e & H2 & ->)];
    apply update_self_inv in H2 as (Hr2 & Hs1 & Hh1 & _); [|discriminate Hr2].
  rewrite <- Hh1.
  apply bind_inv in Hrun as [(hp & w2 & H3 & Hrun)|(e & H3 & ->)];
    apply getattr_inv in H3 as [-> H3]; [|apply same_outside_refl].
  rewrite Hs1 in H3. simpl in H3. rewrite Hhp in H3. injection H3 as <-.
  apply bind_inv in Hrun as [(vs & w2 & H4 & Hrun)|(e & H4 & ->)];
    apply getattr_inv in H4 as [-> H4]; [|apply same_outside_refl].
  apply bind_inv in Hrun as [(u' & w2 & H5 & Hrun)|(e & H5 & ->)];
    apply (apply_hyperparameters_frame the_hyperparameters) in H5
      as (Hs2 & _ & _ & _ & Hh2);
    try (intros p v Hpv; apply (elem_of_zip_l _ _ _ _ Hpv));
    [|exact Hh2].
  eapply same_outside_trans; [exact Hh2|].
  apply bind_inv in Hrun as [(m & w3 & H6 & Hrun)|(e & H6 & ->)];
    apply getattr_inv in H6 as [-> H6]; [|apply same_outside_refl].
  apply bind_inv in Hrun as [(o & w3 & H7 & Hrun)|(e & H7 & ->)];
    apply deref_inv in H7 as [-> H7]; [|apply same_outside_refl].
  apply bind_inv in Hrun as [(tr & w3 & H8 & Hrun)|(e & H8 & ->)];
    apply read_inv in H8 as [-> H8]; [|apply same_outside_refl].
  apply bind_inv in Hrun as [(fs & w3 & H9 & Hrun)|(e & H9 & ->)];
    apply read_inv in H9 as [-> H9]; [|apply same_outside_refl].
  apply bind_inv in Hrun as [(X & w3 & H10 & Hrun)|(e & H10 & ->)];
    unfold lift in H10; injection H10 as H10 <-; [|apply same_outside_refl].
  apply bind_inv in Hrun as [(tgt & w3 & H11 & Hrun)|(e & H11 & ->)];
    apply read_inv in H11 as [-> H11]; [|apply same_outside_refl].
  apply bind_inv in Hrun as [(y & w3 & H12 & Hrun)|(e & H12 & ->)];
    unfold lift in H12; injection H12 as H12 <-; [|apply same_outside_refl].
  apply bind_inv in Hrun as [(u'' & w3 & H13 & Hrun)|(e & H13 & ->)];
    apply fit_inv in H13 as (_ & _ & _ & H13).
  - destruct H13 as (l & e & _ & Hl & Hh3 & _).
    apply getattr_inv in Hrun as [-> _].
    rewrite Hh3. apply (same_outside_insert _ _ _ e); [exact Hl|reflexivity|].
    reflexivity.
  - destruct H13 as [-> _]. apply same_outside_refl.
Qed.

(** ** Trainer: positional binding *)

Lemma the_hyperparameters_NoDup : NoDup the_hyperparameters.
Proof. apply (bool_decide_unpack _). vm_compute. exact I. Qed.

Lemma NoDup_fst_zip {A B} (l : list A) (k : list B) :
  NoDup l -> NoDup (zip l k).*1.
Proof.
  intros Hl. revert k. induction Hl as [|a l Ha Hl IH]; intros [|b k]; simpl;
    try apply NoDup_nil_2.
  apply NoDup_cons. split; [|apply IH].
  intros Hin. apply list_elem_of_fmap in Hin as ([a' b'] & -> & Hin).
  apply Ha. apply (elem_of_zip_l _ _ _ _ Hin).
Qed.

(** A completed loop of lines 325-326 over pairs with distinct names leaves
    each name bound to its value on the object behind [self.model]. *)
Lemma apply_hyperparameters_binds pairs w w' l e' :
  model (self w) = Some (Some l) ->
  NoDup pairs.*1 ->
  apply_hyperparameters pairs w = (Return tt, w') ->
  heap w' !! l = Some e' ->
  forall p v, (p, v) ∈ pairs -> params e' !! p = Some v.
Proof.
  revert w. induction pairs as [|[p v] rest IH]; intros w Hm Hnd Hrun He' q u Hq.
  - inversion Hq.
  - simpl in Hrun, Hnd. apply NoDup_cons in Hnd as [Hp Hnd].
    bind_ok Hrun as m w1 H1. apply getattr_inv in H1 as [-> H1].
    assert (m = Some l) by congruence. subst m.
    bind_ok Hrun as u1 w1 H2.
    apply set_params_inv in H2 as (Hs & _ & _ & _ & (l' & e & Hl' & Hle & Hh)).
    injection Hl' as <-.
    apply elem_of_cons in Hq as [Hq|Hq].
    + injection Hq as -> ->.
      assert (Hnames : forall p' v', (p', v') ∈ rest -> p' ∈ rest.*1).
      { intros p' v' Hin. apply list_elem_of_fmap. exists (p', v'). auto. }
      destruct (apply_hyperparameters_frame rest.*1 rest w1 _ _ Hnames Hrun)
        as (_ & _ & _ & _ & Hframe).
      destruct (Hframe l (with_params {[p := v]} e)) as (e'' & He'' & _ & Hpar).
      { rewrite Hh. apply lookup_insert_eq. }
      assert (e'' = e') by congruence. subst e''.
      rewrite (Hpar p Hp). simpl.
      apply lookup_union_Some_l, lookup_singleton_eq.
    + apply (IH w1); try assumption. congruence.
Qed.

Section Binding.
Context `{Collaborators}.

(** C6.  After a completed search, [self.values] is the best point
    [self.opt.x], entry by entry; and a training that returns has bound,
    on the estimator object that is both [self.estimator] and
    [self.model], the name of the i-th dimension of the space (which is
    the i-th entry of [self.hyperparameters]) to the i-th entry of that
    point. *)
Theorem best_point_bound_in_space_order method n_calls x0 w w1 mdl w2 :
  run method n_calls x0 w = (Return tt, w1) ->
  hyperparameters (self w1) = Some the_hyperparameters ->
  train_model w1 = (Return mdl, w2) ->
  exists r l e,
    opt (self w1) = Some r /\ values (self w1) = Some (x r) /\
    mdl = Some l /\ estimator (self w2) = Some l /\
    model (self w2) = Some (Some l) /\
    heap w2 !! l = Some e /\
    forall i d v, the_space !! i = Some d -> x r !! i = Some v ->
      the_hyperparameters !! i = Some (dim_name d) /\
      params e !! dim_name d = Some v.
Proof.
  intros Hrun Hhp Htrain.
  destruct (run_completed _ _ _ _ _ Hrun)
    as (dims & f & r & w0 & wm & _ & _ & _ & _ & _ & _ & Hs1 & _).
  assert (Hopt : opt (self w1) = Some r) by (rewrite Hs1; reflexivity).
  assert (Hval : values (self w1) = Some (x r)) by (rewrite Hs1; reflexivity).
  unfold train_model in Htrain.
  bind_ok Htrain as est wa T1. apply read_inv in T1 as [-> T1].
  injection T1 as ->.
  bind_ok Htrain as u1 wa T2.
  apply update_self_inv in T2 as (_ & Hsa & Hha & _).
  bind_ok Htrain as hp wb T3. apply getattr_inv in T3 as [-> T3].
  rewrite Hsa in T3. simpl in T3. rewrite Hhp in T3. injection T3 as <-.
  bind_ok Htrain as vs wb T4. apply getattr_inv in T4 as [-> T4].
  rewrite Hsa in T4. simpl in T4. rewrite Hval in T4. injection T4 as <-.
  bind_ok Htrain as u2 wb T5. destruct u2.
  assert (Hnames : forall p v, (p, v) ∈ zip the_hyperparameters (x r) ->
                               p ∈ the_hyperparameters).
  { intros p v Hpv. apply (elem_of_zip_l _ _ _ _ Hpv). }
  destruct (apply_hyperparameters_frame the_hyperparameters _ _ _ _ Hnames T5)
    as (Hsb & _ & _ & _ & _).
  bind_ok Htrain as m wc T6. apply getattr_inv in T6 as [-> T6].
  rewrite Hsb, Hsa in T6. simpl in T6. injection T6 as <-.
  bind_ok Htrain as o wc T7. apply deref_inv in T7 as [-> [Hest Hob]].
  destruct o as [l eb]. simpl in Hest, Hob.
  bind_ok Htrain as tr wc T8. apply read_inv in T8 as [-> _].
  bind_ok Htrain as fs wc T9. apply read_inv in T9 as [-> _].
  bind_ok Htrain as X wc T10. unfold lift in T10. injection T10 as _ <-.
  bind_ok Htrain as tgt wc T11. apply read_inv in T11 as [-> _].
  bind_ok Htrain as y wc T12. unfold lift in T12. injection T12 as _ <-.
  bind_ok Htrain as u3 wd T13.
  apply fit_inv in T13 as (Hsd & _ & _ & (l' & e & Hl' & Hle & Hhd & _)).
  rewrite Hest in Hl'. injection Hl' as <-.
  apply getattr_inv in Htrain as [-> Hmdl].
  rewrite Hsd, Hsb, Hsa in Hmdl. simpl in Hmdl. injection Hmdl as <-.
  exists r, l, {| ctor := ctor e; params := params e; fitted := Some (X, y) |}.
  split; [exact Hopt|]. split; [exact Hval|]. split; [exact Hest|].
  split; [rewrite Hsd, Hsb, Hsa; exact Hest|].
  split; [rewrite Hsd, Hsb, Hsa; simpl; rewrite Hest; reflexivity|].
  split; [rewrite Hhd; apply lookup_insert_eq|].
  intros i d v Hd Hv.
  assert (Hname : the_hyperparameters !! i = Some (dim_name d)).
  { change the_hyperparameters with (dim_name <$> the_space).
    rewrite list_lookup_fmap, Hd. reflexivity. }
  split; [exact Hname|]. simpl.
  apply (apply_hyperparameters_binds (zip the_hyperparameters (x r)) wa wb l e).
  - rewrite Hsa. simpl. rewrite Hest. reflexivity.
  - apply NoDup_fst_zip, the_hyperparameters_NoDup.
  - exact T5.
  - exact Hle.
  - apply list_elem_of_lookup. exists i.
    apply lookup_zip_with_Some. exists (dim_name d), v. auto.
Qed.
End Binding.

(** Witness of C6: a random search and a training on the prepared instance
    of [Stub]; the best point is [(0.1, 100, 31)]. *)
Lemma best_point_bound_in_space_order_witness :
  exists w1 w2 e,
    run (H := Stub.collaborators) "random_search" 10 None Stub.prepared = (Return tt, w1) /\
    hyperparameters (self w1) = Some the_hyperparameters /\
    train_model w1 = (Return (Some 0%nat), w2) /\
    heap w2 !! 0%nat = Some e /\
    params e !! "learning_rate" = Some (VReal (1 # 10)) /\
    params e !! "n_estimators" = Some (VInt 100) /\
    params e !! "num_leaves" = Some (VInt 31).
Proof.
  assert (Hc : (run (H := Stub.collaborators) "random_search" 10 None Stub.prepared).1
               = Return tt) by (vm_compute; reflexivity).
  assert (Hh : hyperparameters
                 (self (run (H := Stub.collaborators) "random_search" 10 None
                          Stub.prepared).2) = Some the_hyperparameters)
    by (vm_compute; reflexivity).
  assert (Hv : values
                 (self (run (H := Stub.collaborators) "random_search" 10 None
                          Stub.prepared).2) = Some Stub.default_point)
    by (vm_compute; reflexivity).
  assert (Ht : (train_model (run (H := Stub.collaborators) "random_search" 10 None
                               Stub.prepared).2).1 = Return (Some 0%nat))
    by (vm_compute; reflexivity).
  destruct (run (H := Stub.collaborators) "random_search" 10 None Stub.prepared)
    as [o w1] eqn:Hrun.
  simpl in Hc, Hh, Hv, Ht. subst o.
  destruct (train_model w1) as [o w2] eqn:Htrain. simpl in Ht. subst o.
  destruct (best_point_bound_in_space_order (H := Stub.collaborators)
              _ _ _ _ _ _ _ Hrun Hh Htrain)
    as (r & l & e & _ & Hval & Hl & _ & _ & He & Hbind).
  injection Hl as <-.
  assert (Hx : x r = Stub.default_point) by congruence.
  exists w1, w2, e.
  split; [reflexivity|]. split; [exact Hh|]. split; [exact Htrain|].
  split; [exact He|].
  rewrite Hx in Hbind.
  split; [|split].
  - apply (Hbind 0%nat (Real (1 # 10000) 1 "learning_rate" "log-uniform")); reflexivity.
  - apply (Hbind 1%nat (Integer 100 3000 "n_estimators")); reflexivity.
  - apply (Hbind 2%nat (Integer 10 400 "num_leaves")); reflexivity.
Defined.

(** Witness of C10: training on the searched instance of [Stub] keeps the
    constructor, the seed, the importance accounting, the depth and the
    objective of the baseline. *)
Lemma train_model_touches_only_searched_witness :
  exists w2 e',
    hyperparameters (self Stub.searched) = Some the_hyperparameters /\
    heap Stub.searched !! 0%nat <> None /\
    train_model Stub.searched = (Return (Some 0%nat), w2) /\
    heap w2 !! 0%nat = Some e' /\
    ctor e' = LGBMClassifier /\
    params e' !! "random_state" = Some (VInt 42) /\
    params e' !! "importance_type" = Some (VStr "gain") /\
    params e' !! "max_depth" = Some (VInt (-1)) /\
    params e' !! "objective" = Some VNone.
Proof.
  assert (Hh : hyperparameters (self Stub.searched) = Some the_hyperparameters)
    by (vm_compute; reflexivity).
  assert (Ht : (train_model Stub.searched).1 = Return (Some 0%nat))
    by (vm_compute; reflexivity).
  assert (He : (fun e => (ctor e, params e !! "random_state",
                          params e !! "importance_type", params e !! "max_depth",
                          params e !! "objective")) <$> heap Stub.searched !! 0%nat
               = Some (LGBMClassifier, Some (VInt 42), Some (VStr "gain"),
                       Some (VInt (-1)), Some VNone))
    by (vm_compute; reflexivity).
  destruct (heap Stub.searched !! 0%nat) as [e|] eqn:Hl; [|discriminate He].
  simpl in He. injection He as Hc H1 H2 H3 H4.
  destruct (train_model Stub.searched) as [o w2] eqn:Htrain. simpl in Ht. subst o.
  destruct (train_model_touches_only_searched _ _ _ Hh Htrain 0%nat e Hl)
    as (e' & Hl' & Hc' & Hp).
  assert (Hout : forall p, p ∈ ["random_state"; "importance_type"; "max_depth"; "objective"]
                           -> p ∉ the_hyperparameters).
  { intros p Hp1 Hp2. unfold the_hyperparameters in Hp2.
    repeat (apply elem_of_cons in Hp1 as [->|Hp1];
      [repeat (apply elem_of_cons in Hp2 as [Hp2|Hp2]; [discriminate Hp2|]);
       inversion Hp2|]).
    inversion Hp1. }
  exists w2, e'.
  split; [exact Hh|]. split; [discriminate|].
  split; [reflexivity|]. split; [exact Hl'|].
  split; [congruence|].
  repeat split.
  - rewrite Hp; [exact H1 | apply Hout; apply elem_of_cons; auto].
  - rewrite Hp; [exact H2 | apply Hout; do 1 (apply elem_of_cons; right);
                            apply elem_of_cons; auto].
  - rewrite Hp; [exact H3 | apply Hout; do 2 (apply elem_of_cons; right);
                            apply elem_of_cons; auto].
  - rewrite Hp; [exact H4 | apply Hout; do 3 (apply elem_of_cons; right);
                            apply elem_of_cons; auto].
Defined.


(** * Further properties *)

(** ** Data Preparation: what the scaling leaves alone, and what is read back *)

Lemma select_columns_present df cols X c :
  select df cols = Return X -> c ∈ cols -> is_Some (df !! c).
Proof.
  intros Hsel Hc. apply list_elem_of_lookup in Hc as [i Hi].
  apply (select_lookup _ _ _ _ _ Hsel Hi).
Qed.

Lemma assign_dom df cols m :
  (forall c, c ∈ cols -> is_Some (df !! c)) -> dom (assign df cols m) = dom df.
Proof.
  unfold assign. revert df m. induction cols as [|c cs IH]; intros df m Hin.
  - reflexivity.
  - destruct m as [|v m]; [reflexivity|]. simpl.
    rewrite IH.
    + rewrite dom_insert_L.
      assert (c ∈ dom df) by (apply elem_of_dom, Hin, elem_of_cons; auto).
      apply subseteq_union_1_L, singleton_subseteq_l. assumption.
    + intros c' Hc'. apply lookup_insert_is_Some'. right.
      apply Hin, elem_of_cons. auto.
Qed.

(** Selecting back, with the same distinct labels, what was assigned. *)
Lemma select_assign df cols m :
  NoDup cols -> length m = length cols -> select (assign df cols m) cols = Return m.
Proof.
  unfold assign. intros Hnd. revert df m.
  induction Hnd as [|c cs Hc Hnd IH]; intros df [|v m] Hlen; try discriminate.
  - reflexivity.
  - simpl in *.
    pose proof (assign_lookup_notin (<[c:=v]> df) cs m c Hc) as Hn.
    unfold assign in Hn. rewrite Hn, lookup_insert_eq.
    rewrite IH by lia. reflexivity.
Qed.

Section PreparationFrame.
Context `{Scaler}.

(** X1.  A construction with [scaled = False] keeps the columns of both
    tables and leaves every column that is not in the feature list (the
    target column among them) as it was loaded. *)
Theorem scaling_keeps_other_columns path train test tgt features prob est s :
  __init__ path train test tgt features false prob est = Return s ->
  dom (sample_train s) = dom train /\
  dom (sample_test s) = dom test /\
  forall c, c ∉ features ->
    sample_train s !! c = train !! c /\ sample_test s !! c = test !! c.
Proof.
  intros Hinit.
  destruct (init_unscaled_inv _ _ _ _ _ _ _ _ Hinit) as [sc Hsc].
  destruct (scale_features_inv _ _ _ _ _ _ Hsc)
    as (Xtr & Ttr & Xte & Tte & Str & _ & _ & -> & Ste & _ & ->).
  split; [|split].
  - apply assign_dom. intros c Hc. apply (select_columns_present _ _ _ _ Str Hc).
  - apply assign_dom. intros c Hc. apply (select_columns_present _ _ _ _ Ste Hc).
  - intros c Hc. split; apply assign_lookup_notin, Hc.
Qed.

(** X2.  With distinct feature labels and a scaler whose transform keeps
    the number of columns, the feature matrix read back from the prepared
    train table (what the objective and the trainer are given) is the
    scaler's output on the raw train features, and likewise for the test
    table, under the parameters fit on the train features. *)
Theorem prepared_matrix_is_scaler_output path train test tgt features prob est s :
  (forall p X T, scaler_transform p X = Return T -> length T = length X) ->
  NoDup features ->
  __init__ path train test tgt features false prob est = Return s ->
  exists sc Xtrain Ttrain Xtest Ttest,
    select train features = Return Xtrain /\
    scaler_fit Xtrain = Return sc /\
    scaler_transform sc Xtrain = Return Ttrain /\
    select test features = Return Xtest /\
    scaler_transform sc Xtest = Return Ttest /\
    select (sample_train s) features = Return Ttrain /\
    select (sample_test s) features = Return Ttest.
Proof.
  intros Hshape Hnd Hinit.
  destruct (init_unscaled_inv _ _ _ _ _ _ _ _ Hinit) as [sc Hsc].
  destruct (scale_features_inv _ _ _ _ _ _ Hsc)
    as (Xtr & Ttr & Xte & Tte & Str & Fit & Trtr & -> & Ste & Trte & ->).
  exists sc, Xtr, Ttr, Xte, Tte.
  repeat split; try assumption.
  - apply select_assign; [exact Hnd|].
    rewrite (Hshape _ _ _ Trtr). apply (select_length _ _ _ Str).
  - apply select_assign; [exact Hnd|].
    rewrite (Hshape _ _ _ Trte). apply (select_length _ _ _ Ste).
Qed.
End PreparationFrame.

(** Witness of X1: the target column of the tables of [Stub]. *)
Lemma scaling_keeps_other_columns_witness :
  exists s,
    __init__ "out" Stub.train Stub.test "y" ["a"; "b"] false "regression" None = Return s /\
    sample_train s !! "y" = Some [0; 1; 1]%Q /\
    sample_test s !! "y" = Some [1; 0]%Q.
Proof.
  destruct (__init__ "out" Stub.train Stub.test "y" ["a"; "b"] false "regression" None)
    as [s|e] eqn:E; [|vm_compute in E; discriminate E].
  destruct (scaling_keeps_other_columns _ _ _ _ _ _ _ _ E) as (_ & _ & Hc).
  destruct (Hc "y") as [Htr Hte].
  { intros Hin. repeat (apply elem_of_cons in Hin as [Hin|Hin]; [discriminate Hin|]).
    inversion Hin. }
  exists s. split; [reflexivity|]. rewrite Htr, Hte. split; reflexivity.
Defined.

(** Witness of X2: the min-max scaler on the tables of [Stub]. *)
Lemma prepared_matrix_is_scaler_output_witness :
  exists s Ttrain,
    __init__ "out" Stub.train Stub.test "y" ["a"; "b"] false "regression" None = Return s /\
    select (sample_train s) ["a"; "b"] = Return Ttrain /\
    length Ttrain = 2%nat.
Proof.
  destruct (__init__ "out" Stub.train Stub.test "y" ["a"; "b"] false "regression" None)
    as [s|e] eqn:E; [|vm_compute in E; discriminate E].
  destruct (prepared_matrix_is_scaler_output (H := MinMaxScaler)
              "out" Stub.train Stub.test "y" ["a"; "b"] "regression" None s)
    as (sc & Xtr & Ttr & Xte & Tte & Str & _ & Trtr & _ & _ & Hback & _).
  - intros p X T. apply minmax_transform_length.
  - apply (bool_decide_unpack _). vm_compute. exact I.
  - exact E.
  - exists s, Ttr. split; [reflexivity|]. split; [exact Hback|].
    rewrite (minmax_transform_length _ _ _ Trtr).
    apply (select_length _ _ _ Str).
Defined.

(** ** Model Selector: unrecognized names, fresh objects, the objective label *)

(** X3.  With a boosting family other than ['lightGBM'] and ['XGBoost'], or
    a problem kind other than ['classification'] and ['regression'],
    [base_model] raises nothing and builds nothing: it records the family
    name and returns whatever [self.estimator] already was. *)
Theorem base_model_unrecognized_builds_nothing boosting kwargs w :
  boosting ∉ ["lightGBM"; "XGBoost"] \/
  problem (self w) ∉ ["classification"; "regression"] ->
  exists w',
    base_model boosting kwargs w = (Return (estimator (self w)), w') /\
    self w' = set_boosting_method boosting (self w) /\
    heap w' = heap w /\ files w' = files w /\
    cv_log w' = cv_log w /\ fit_log w' = fit_log w.
Proof.
  intros Hbad. unfold base_model.
  unfold mbind, M_bind, read, update_self, getattr. simpl.
  assert (Hcase :
    (String.eqb boosting "lightGBM" = false /\ String.eqb boosting "XGBoost" = false) \/
    (String.eqb (problem (self w)) "classification" = false /\
     String.eqb (problem (self w)) "regression" = false)).
  { destruct Hbad as [Hb|Hp]; [left|right]; split; apply String.eqb_neq;
      intros Heq.
    - apply Hb. rewrite Heq. apply elem_of_cons. left. reflexivity.
    - apply Hb. rewrite Heq. apply elem_of_cons. right.
      apply elem_of_cons. left. reflexivity.
    - apply Hp. rewrite Heq. apply elem_of_cons. left. reflexivity.
    - apply Hp. rewrite Heq. apply elem_of_cons. right.
      apply elem_of_cons. left. reflexivity. }
  destruct Hcase as [[-> ->]|[-> ->]].
  - destruct (String.eqb (problem (self w)) "classification");
      [|destruct (String.eqb (problem (self w)) "regression")];
      simpl; eexists; (split; [reflexivity|]); simpl; auto 10.
  - simpl. eexists. split; [reflexivity|]. simpl. auto 10.
Qed.

(** Witness of X3: the family name ['xgboost'] (lower case) on the fresh
    instance of [Stub]; no estimator results. *)
Lemma base_model_unrecognized_builds_nothing_witness :
  exists w w',
    Stub.fresh_world "regression" = Some w /\
    base_model "xgboost" ∅ w = (Return None, w') /\
    heap w' = heap w.
Proof.
  destruct (Stub.fresh_world "regression") as [w|] eqn:E;
    [|vm_compute in E; discriminate E].
  assert (He : (fun w => estimator (self w)) <$> Stub.fresh_world "regression"
               = Some None) by (vm_compute; reflexivity).
  rewrite E in He. injection He as He.
  destruct (base_model_unrecognized_builds_nothing "xgboost" ∅ w)
    as (w' & Hb & _ & Hh & _).
  - left. intros Hin.
    repeat (apply elem_of_cons in Hin as [Hin|Hin]; [discriminate Hin|]).
    inversion Hin.
  - exists w, w'. rewrite He in Hb. auto.
Defined.

(** X4.  With a recognized family and problem kind, [base_model] builds a
    new object: its reference was not in use, every object that existed is
    kept as it was (so an earlier [self.model] still refers to the earlier
    estimator), the new object is unfitted, carries the seed 42 and sets
    none of the three searched parameters. *)
Theorem base_model_builds_fresh_object boosting kwargs w :
  boosting ∈ ["lightGBM"; "XGBoost"] ->
  problem (self w) ∈ ["classification"; "regression"] ->
  exists l e w',
    base_model boosting kwargs w = (Return (Some l), w') /\
    heap w !! l = None /\
    heap w' = <[l := e]> (heap w) /\
    estimator (self w') = Some l /\
    model (self w') = model (self w) /\
    fitted e = None /\
    params e !! "random_state" = Some (VInt 42) /\
    forall p, p ∈ the_hyperparameters -> params e !! p = None.
Proof.
  intros Hb Hp.
  assert (Hfresh : heap w !! fresh (dom (heap w)) = None).
  { apply not_elem_of_dom, is_fresh. }
  assert (Hnone : forall (m : gmap string value),
            m !! "learning_rate" = None -> m !! "n_estimators" = None ->
            m !! "num_leaves" = None ->
            forall p, p ∈ the_hyperparameters -> m !! p = None).
  { intros m H1 H2 H3 p Hin. unfold the_hyperparameters in Hin.
    repeat (apply elem_of_cons in Hin as [->|Hin]; [assumption|]).
    inversion Hin. }
  unfold base_model, construct, new.
  unfold mbind, M_bind, read, update_self, getattr. simpl.
  repeat (apply elem_of_cons in Hb as [->|Hb]);
    repeat (apply elem_of_cons in Hp as [Hp|Hp]);
    try (inversion Hb; fail); try (inversion Hp; fail);
    rewrite Hp; simpl;
    (eexists _, _, _; split; [reflexivity|]; simpl;
     split; [exact Hfresh|]; split; [reflexivity|]; split; [reflexivity|];
     split; [reflexivity|]; split; [reflexivity|]; split; [reflexivity|];
     apply Hnone; reflexivity).
Qed.

(** Witness of X4: a second [base_model] on the prepared instance of
    [Stub], whose object 0 stays. *)
Lemma base_model_builds_fresh_object_witness :
  exists l w',
    base_model "XGBoost" ∅ Stub.prepared = (Return (Some l), w') /\
    l <> 0%nat /\
    heap w' !! 0%nat = Some Stub.lgbm.
Proof.
  destruct (base_model_builds_fresh_object "XGBoost" ∅ Stub.prepared)
    as (l & e & w' & Hb & Hl & Hh & _).
  - apply elem_of_cons. right. apply elem_of_cons. left. reflexivity.
  - apply elem_of_cons. left. reflexivity.
  - exists l, w'. split; [exact Hb|].
    assert (Hne : l <> 0%nat).
    { intros ->. vm_compute in Hl. discriminate Hl. }
    split; [exact Hne|]. rewrite Hh, lookup_insert_ne by exact Hne. reflexivity.
Defined.

(** X5.  For a regression problem the keyword arguments of [base_model]
    play no part: any two calls that differ only in them (in the objective
    label, say) have the same outcome. *)
Theorem base_model_regression_ignores_kwargs boosting kwargs1 kwargs2 w :
  problem (self w) = "regression" ->
  base_model boosting kwargs1 w = base_model boosting kwargs2 w.
Proof.
  intros Hp. unfold base_model.
  unfold mbind, M_bind, read, update_self, getattr. simpl.
  rewrite Hp. simpl. reflexivity.
Qed.

(** Witness of X5: two objective labels on a regression instance. *)
Lemma base_model_regression_ignores_kwargs_witness :
  exists w,
    Stub.fresh_world "regression" = Some w /\
    base_model "lightGBM" {[ "objective" := VStr "binary" ]} w
    = base_model "lightGBM" {[ "objective" := VStr "multiclass" ]} w.
Proof.
  destruct (Stub.fresh_world "regression") as [w|] eqn:E;
    [|vm_compute in E; discriminate E].
  assert (Hp : (fun w => problem (self w)) <$> Stub.fresh_world "regression"
               = Some "regression") by (vm_compute; reflexivity).
  rewrite E in Hp. injection Hp as Hp.
  exists w. split; [reflexivity|].
  apply (base_model_regression_ignores_kwargs "lightGBM" _ _ w Hp).
Defined.

(** ** Hyperparameter Search: the objective, whatever its outcome *)

Lemma foldl_insert_lookup_notin {V} (pairs : list (string * V)) (m : gmap string V) p :
  p ∉ pairs.*1 ->
  foldl (fun d nv => <[nv.1 := nv.2]> d) m pairs !! p = m !! p.
Proof.
  revert m. induction pairs as [|[q v] rest IH]; intros m Hp; simpl; [reflexivity|].
  simpl in Hp. apply not_elem_of_cons in Hp as [Hne Hp].
  rewrite IH by exact Hp. apply lookup_insert_ne. congruence.
Qed.

Lemma foldl_insert_lookup {V} (pairs : list (string * V)) (m : gmap string V) p v :
  NoDup pairs.*1 -> (p, v) ∈ pairs ->
  foldl (fun d nv => <[nv.1 := nv.2]> d) m pairs !! p = Some v.
Proof.
  revert m. induction pairs as [|[q u] rest IH]; intros m Hnd Hin; [inversion Hin|].
  simpl in Hnd. apply NoDup_cons in Hnd as [Hq Hnd]. simpl.
  apply elem_of_cons in Hin as [Heq|Hin].
  - injection Heq as -> ->.
    rewrite foldl_insert_lookup_notin by exact Hq. apply lookup_insert_eq.
  - apply IH; assumption.
Qed.

Lemma fst_zip_subseteq {A B} (l : list A) (k : list B) a :
  a ∈ (zip l k).*1 -> a ∈ l.
Proof.
  intros Hin. apply list_elem_of_fmap in Hin as ([a' b'] & -> & Hin).
  apply (elem_of_zip_l _ _ _ _ Hin).
Qed.

Lemma named_args_lookup_None dims point p :
  p ∉ dim_name <$> dims -> named_args dims point !! p = None.
Proof.
  intros Hp. unfold named_args. rewrite foldl_insert_lookup_notin.
  - apply lookup_empty.
  - intros Hin. apply Hp. apply (fst_zip_subseteq _ _ _ Hin).
Qed.

Lemma named_args_lookup dims point i d v :
  NoDup (dim_name <$> dims) -> dims !! i = Some d -> point !! i = Some v ->
  named_args dims point !! dim_name d = Some v.
Proof.
  intros Hnd Hd Hv. unfold named_args. apply foldl_insert_lookup.
  - apply NoDup_fst_zip, Hnd.
  - apply list_elem_of_lookup. exists i.
    apply lookup_zip_with_Some. exists (dim_name d), v.
    rewrite list_lookup_fmap, Hd. auto.
Qed.

Section ObjectiveOutcomes.
Context `{Collaborators}.

(** The ways an evaluation of the objective can go: it raises before
    anything changed; or it has set the candidate on the estimator, and
    then either raises without a score or asks the scorer once and
    returns. *)
Lemma objective_cases dims point w res w' :
  objective dims point w = (res, w') ->
  self w' = self w /\ files w' = files w /\ fit_log w' = fit_log w /\
  ((w' = w /\ exists e, res = Raise e) \/
   exists l e0,
     length point = length dims /\
     estimator (self w) = Some l /\ heap w !! l = Some e0 /\
     heap w' = <[l := with_params (named_args dims point) e0]> (heap w) /\
     ((cv_log w' = cv_log w /\ exists e, res = Raise e) \/
      exists X y sc,
        select (sample_train (self w)) (RFE_features (self w)) = Return X /\
        sample_train (self w) !! target (self w) = Some y /\
        ((problem (self w) = "classification" /\ sc = "roc_auc") \/
         (problem (self w) = "regression" /\ sc = "neg_root_mean_squared_error")) /\
        cv_log w' = (cv_log w ++
                     [{| cv_estimator := with_params (named_args dims point) e0;
                         cv_X := X; cv_y := y; cv_folds := 5; cv_n_jobs := -1;
                         cv_scoring := sc |}])%list /\
        res = Return (- np_mean (cross_val_score
                                   (with_params (named_args dims point) e0)
                                   X y 5 (-1) sc))%Q)).
Proof.
  unfold objective, set_params, deref, store, lift, scored, getitem, raise, read.
  unfold mbind, M_bind, mret, M_ret. simpl.
  destruct (length point =? length dims)%nat eqn:Hlen; simpl.
  2:{ intros [= <- <-]. repeat split; trivial. left. eauto. }
  apply Nat.eqb_eq in Hlen.
  destruct (estimator (self w)) as [l|] eqn:Hest; simpl.
  2:{ intros [= <- <-]. repeat split; trivial. left. eauto. }
  destruct (heap w !! l) as [e0|] eqn:Hl; simpl.
  2:{ intros [= <- <-]. repeat split; trivial. left. eauto. }
  rewrite Hest. simpl. rewrite lookup_insert_eq. simpl.
  destruct (select (sample_train (self w)) (RFE_features (self w))) as [X|] eqn:Hsel;
    simpl.
  2:{ intros [= <- <-]. simpl. repeat split; trivial. right. exists l, e0.
      repeat split; trivial. left. eauto. }
  destruct (sample_train (self w) !! target (self w)) as [y|] eqn:Hy; simpl.
  2:{ intros [= <- <-]. simpl. repeat split; trivial. right. exists l, e0.
      repeat split; trivial. left. eauto. }
  destruct (String.eqb (problem (self w)) "classification") eqn:Hc; simpl.
  { apply String.eqb_eq in Hc. intros [= <- <-]. simpl. repeat split; trivial.
    right. exists l, e0. repeat split; trivial. right.
    exists X, y, "roc_auc". repeat split; auto. }
  destruct (String.eqb (problem (self w)) "regression") eqn:Hr; simpl.
  { apply String.eqb_eq in Hr. intros [= <- <-]. simpl. repeat split; trivial.
    right. exists l, e0. repeat split; trivial. right.
    exists X, y, "neg_root_mean_squared_error". repeat split; auto. }
  intros [= <- <-]. simpl. repeat split; trivial. right. exists l, e0.
  repeat split; trivial. left. eauto.
Qed.

(** X6.  Whatever its outcome, an evaluation of the objective keeps
    [self], writes no file and fits nothing, and on the estimator objects
    it changes at most the parameters named by the dimensions; an
    evaluation that returns a score has asked the scorer exactly once. *)
Theorem objective_frame dims point w res w' :
  objective dims point w = (res, w') ->
  self w' = self w /\ files w' = files w /\ fit_log w' = fit_log w /\
  same_outside (dim_name <$> dims) (heap w) (heap w') /\
  forall q, res = Return q -> exists call, cv_log w' = (cv_log w ++ [call])%list.
Proof.
  intros Hobj.
  destruct (objective_cases _ _ _ _ _ Hobj) as (Hs & Hf & Hl & Hcases).
  repeat split; trivial.
  - destruct Hcases as [[-> _]|(l & e0 & _ & _ & Hl0 & Hh & _)].
    + apply same_outside_refl.
    + rewrite Hh. apply (same_outside_insert _ _ _ e0); [exact Hl0|reflexivity|].
      intros p Hp. apply lookup_with_params_other, named_args_lookup_None, Hp.
  - intros q ->.
    destruct Hcases as [[_ [e He]]|(l & e0 & _ & _ & _ & _ & Hrest)];
      [discriminate He|].
    destruct Hrest as [[_ [e He]]|(X & y & sc & _ & _ & _ & Hc & _)];
      [discriminate He|].
    eexists. exact Hc.
Qed.

(** X7.  While [self.estimator] is [None] (no [base_model] call built one),
    no candidate is ever scored: the objective raises [ValueError] (wrong
    number of coordinates) or [AttributeError], and changes nothing. *)
Theorem objective_without_estimator dims point w :
  estimator (self w) = None ->
  exists e,
    objective dims point w = (Raise e, w) /\
    (e = AttributeError "set_params" \/
     e = ValueError "point and dimensions differ in length").
Proof.
  intros Hest.
  unfold objective, set_params, deref, store, lift, scored, getitem, raise, read.
  unfold mbind, M_bind, mret, M_ret. simpl.
  destruct (length point =? length dims)%nat; simpl.
  - rewrite Hest. eauto.
  - eauto.
Qed.

(** X8.  With a problem kind other than ['classification'] and
    ['regression'] the objective never returns a score and never calls the
    scorer: every evaluation raises (the local [scoring] is unbound at
    line 202, when nothing raised earlier). *)
Theorem objective_unknown_problem_never_scores dims point w res w' :
  problem (self w) ∉ ["classification"; "regression"] ->
  objective dims point w = (res, w') ->
  (exists e, res = Raise e) /\ cv_log w' = cv_log w.
Proof.
  intros Hp Hobj.
  destruct (objective_cases _ _ _ _ _ Hobj) as (_ & _ & _ & Hcases).
  destruct Hcases as [[-> He]|(l & e0 & _ & _ & _ & _ & Hrest)]; [auto|].
  destruct Hrest as [[Hc He]|(X & y & sc & _ & _ & Hprob & _)]; [auto|].
  exfalso. apply Hp.
  destruct Hprob as [[-> _]|[-> _]].
  - apply elem_of_cons. left. reflexivity.
  - apply elem_of_cons. right. apply elem_of_cons. left. reflexivity.
Qed.

(** X9.  An evaluation that returns a score has left, on the estimator,
    the name of the i-th dimension bound to the i-th coordinate of the
    candidate, for dimensions with distinct names. *)
Theorem objective_binds_candidate dims point w q w' :
  NoDup (dim_name <$> dims) ->
  objective dims point w = (Return q, w') ->
  exists l e',
    estimator (self w') = Some l /\ heap w' !! l = Some e' /\
    length point = length dims /\
    forall i d v, dims !! i = Some d -> point !! i = Some v ->
      params e' !! dim_name d = Some v.
Proof.
  intros Hnd Hobj.
  destruct (objective_cases _ _ _ _ _ Hobj) as (Hs & _ & _ & Hcases).
  destruct Hcases as [[_ [e He]]|(l & e0 & Hlen & Hest & Hl0 & Hh & _)];
    [discriminate He|].
  exists l, (with_params (named_args dims point) e0).
  split; [rewrite Hs; exact Hest|].
  split; [rewrite Hh; apply lookup_insert_eq|].
  split; [exact Hlen|].
  intros i d v Hd Hv. simpl.
  apply lookup_union_Some_l, (named_args_lookup _ _ i); assumption.
Qed.
End ObjectiveOutcomes.

(** Witness of X6: the default point on the prepared instance of [Stub];
    the evaluation returns, after one call of the scorer. *)
Lemma objective_frame_witness :
  exists q w' call,
    objective (H := Stub.collaborators) the_space Stub.default_point Stub.prepared
      = (Return q, w') /\
    self w' = self Stub.prepared /\ files w' = ∅ /\ fit_log w' = [] /\
    cv_log w' = [call].
Proof.
  assert (Hc : exists q, (objective (H := Stub.collaborators) the_space
                            Stub.default_point Stub.prepared).1 = Return q)
    by (eexists; vm_compute; reflexivity).
  destruct Hc as [q Hq].
  destruct (objective (H := Stub.collaborators) the_space Stub.default_point
              Stub.prepared) as [res w'] eqn:E.
  simpl in Hq. subst res.
  destruct (objective_frame (H := Stub.collaborators) _ _ _ _ _ E)
    as (Hs & Hf & Hl & _ & Hcall).
  destruct (Hcall q eq_refl) as [call Hlog].
  exists q, w', call. auto.
Defined.

(** Witness of X7: the fresh instance of [Stub], before any [base_model]. *)
Lemma objective_without_estimator_witness :
  exists w e,
    Stub.fresh_world "classification" = Some w /\
    estimator (self w) = None /\
    objective (H := Stub.collaborators) the_space Stub.default_point w = (Raise e, w).
Proof.
  destruct (Stub.fresh_world "classification") as [w|] eqn:E;
    [|vm_compute in E; discriminate E].
  assert (He : (fun w => estimator (self w)) <$> Stub.fresh_world "classification"
               = Some None) by (vm_compute; reflexivity).
  rewrite E in He. injection He as He.
  destruct (objective_without_estimator (H := Stub.collaborators)
              the_space Stub.default_point w He) as (e & Hobj & _).
  exists w, e. auto.
Defined.

(** Witness of X8: the problem kind ['ranking'] on an instance that has
    its estimator; the evaluation gets as far as the unbound [scoring]. *)
Lemma objective_unknown_problem_never_scores_witness :
  exists w',
    problem (self Stub.ranking) = "ranking" /\
    estimator (self Stub.ranking) = Some 0%nat /\
    objective (H := Stub.collaborators) the_space Stub.default_point Stub.ranking
      = (Raise (UnboundLocalError "scoring"), w') /\
    cv_log w' = cv_log Stub.ranking.
Proof.
  assert (He : (objective (H := Stub.collaborators) the_space Stub.default_point
                  Stub.ranking).1 = Raise (UnboundLocalError "scoring"))
    by (vm_compute; reflexivity).
  destruct (objective (H := Stub.collaborators) the_space Stub.default_point
              Stub.ranking) as [res w'] eqn:Hobj.
  simpl in He. subst res.
  destruct (objective_unknown_problem_never_scores (H := Stub.collaborators)
              the_space Stub.default_point Stub.ranking
              (Raise (UnboundLocalError "scoring")) w') as [_ Hc].
  - intros Hin.
    repeat (apply elem_of_cons in Hin as [Hin|Hin]; [discriminate Hin|]).
    inversion Hin.
  - exact Hobj.
  - exists w'. auto.
Defined.

(** Witness of X9: the default point on the prepared instance of [Stub]. *)
Lemma objective_binds_candidate_witness :
  exists q w' e',
    objective (H := Stub.collaborators) the_space Stub.default_point Stub.prepared
      = (Return q, w') /\
    heap w' !! 0%nat = Some e' /\
    params e' !! "learning_rate" = Some (VReal (1 # 10)) /\
    params e' !! "n_estimators" = Some (VInt 100) /\
    params e' !! "num_leaves" = Some (VInt 31).
Proof.
  assert (Hc : exists q, (objective (H := Stub.collaborators) the_space
                            Stub.default_point Stub.prepared).1 = Return q)
    by (eexists; vm_compute; reflexivity).
  destruct Hc as [q Hq].
  destruct (objective (H := Stub.collaborators) the_space Stub.default_point
              Stub.prepared) as [res w'] eqn:E.
  simpl in Hq. subst res.
  assert (Hs : self w' = self Stub.prepared).
  { apply (objective_cases (H := Stub.collaborators) _ _ _ _ _ E). }
  destruct (objective_binds_candidate (H := Stub.collaborators)
              the_space Stub.default_point Stub.prepared q w')
    as (l & e' & Hest & He' & _ & Hbind).
  - apply (bool_decide_unpack _). vm_compute. exact I.
  - exact E.
  - rewrite Hs in Hest. injection Hest as <-.
    exists q, w', e'. split; [reflexivity|]. split; [exact He'|].
    split; [|split].
    + apply (Hbind 0%nat (Real (1 # 10000) 1 "learning_rate" "log-uniform"));
        reflexivity.
    + apply (Hbind 1%nat (Integer 100 3000 "n_estimators")); reflexivity.
    + apply (Hbind 2%nat (Integer 10 400 "num_leaves")); reflexivity.
Defined.

(** ** Hyperparameter Search: the name of the artifact *)

Lemma string_app_inj_l (a b c : string) : a ++ b = a ++ c -> b = c.
Proof.
  induction a as [|ch a IH]; simpl; [auto|]. intros [= Heq]. auto.
Qed.

Lemma string_app_cons ch (a b : string) :
  String ch a ++ b = String ch (a ++ b).
Proof. reflexivity. Qed.

Lemma string_app_assoc (a b c : string) : (a ++ b) ++ c = a ++ b ++ c.
Proof.
  induction a as [|ch a IH]; [reflexivity|].
  rewrite !string_app_cons, IH. reflexivity.
Qed.

Lemma string_length_app (a b : string) :
  String.length (a ++ b) = (String.length a + String.length b)%nat.
Proof. induction a as [|ch a IH]; simpl; [reflexivity|]. rewrite IH. reflexivity. Qed.

Lemma string_app_inj_r (a b c : string) : a ++ c = b ++ c -> a = b.
Proof.
  revert b. induction a as [|ch a IH]; intros [|ch' b] Heq; simpl in Heq.
  - reflexivity.
  - exfalso. apply (f_equal String.length) in Heq.
    rewrite !string_length_app in Heq. simpl in Heq. lia.
  - exfalso. apply (f_equal String.length) in Heq.
    rewrite !string_length_app in Heq. simpl in Heq. lia.
  - injection Heq as -> Heq. f_equal. apply IH, Heq.
Qed.

(** [os.path.join] on a relative second component: the first component, a
    separator where one is needed, the second component. *)
Lemma os_path_join_relative a b :
  String.prefix "/" b = false ->
  exists sep, (sep = "" \/ sep = "/") /\ os_path_join a b = a ++ sep ++ b.
Proof.
  intros Hb. unfold os_path_join. rewrite Hb.
  destruct (String.eqb a "") eqn:Ha.
  - apply String.eqb_eq in Ha. subst a. exists "". auto.
  - destruct (String.eqb _ "/").
    + exists "". auto.
    + exists "/". auto.
Qed.

(** X10.  The file that [run] writes lies under [path_to_save] (directly
    after it, or after one separator), its name is
    ["optimization_data_" + target + ".pkl"], and searches for different
    targets into one directory never write to the same file. *)
Theorem artifact_paths_distinct dir t1 t2 :
  t1 <> t2 ->
  os_path_join dir (artifact_name t1) <> os_path_join dir (artifact_name t2) /\
  exists sep, (sep = "" \/ sep = "/") /\
    os_path_join dir (artifact_name t1)
    = dir ++ sep ++ "optimization_data_" ++ t1 ++ ".pkl".
Proof.
  intros Hne.
  assert (Hrel : forall t, String.prefix "/" (artifact_name t) = false)
    by (intros t; reflexivity).
  assert (Hsep : forall t, os_path_join dir (artifact_name t)
                 = (if String.eqb dir "" then ""
                    else if ends_with_sep dir then dir else dir ++ "/")
                   ++ artifact_name t).
  { intros t. unfold os_path_join, ends_with_sep. rewrite (Hrel t).
    destruct (String.eqb dir ""); [reflexivity|].
    destruct (String.eqb _ "/"); [reflexivity|].
    symmetry. apply string_app_assoc. }
  split.
  - rewrite !Hsep. intros Heq. apply string_app_inj_l in Heq.
    unfold artifact_name in Heq. apply string_app_inj_l in Heq.
    apply string_app_inj_r in Heq. contradiction.
  - apply (os_path_join_relative dir (artifact_name t1) (Hrel t1)).
Qed.

(** Witness of X10: the targets ["y"] and ["z"] in the directory ["out"]. *)
Lemma artifact_paths_distinct_witness :
  os_path_join "out" (artifact_name "y") = "out/optimization_data_y.pkl" /\
  os_path_join "out" (artifact_name "y") <> os_path_join "out" (artifact_name "z").
Proof.
  split; [reflexivity|].
  apply (artifact_paths_distinct "out" "y" "z"). discriminate.
Defined.

(** ** Hyperparameter Search: what [run] does around its minimizer *)

Lemma bind_Return {A B} (m : M A) (f : A -> M B) w a w1 :
  m w = (Return a, w1) -> (m ≫= f) w = f a w1.
Proof. unfold mbind, M_bind. intros ->. reflexivity. Qed.

(** The loop of lines 236-238 from index [k] on, when
    [self.hyperparameters] runs out before [self.opt.x]: it stops with
    [IndexError] at the first index that has no name, having appended the
    entries before it. *)
Lemma report_runs_out n k w o hp vs :
  opt (self w) = Some o -> hyperparameters (self w) = Some hp ->
  values (self w) = Some vs ->
  k <= length hp -> length hp < k + n -> k + n <= length (x o) ->
  exists w',
    report (seq k n) w = (Raise (IndexError "list index out of range"), w') /\
    values_only w w' /\
    values (self w') = Some (vs ++ take (length hp - k) (drop k (x o)))%list.
Proof.
  revert k w vs. induction n as [|n IH]; intros k w vs Ho Hhp Hv Hk0 Hk1 Hk2; [lia|].
  simpl. destruct (decide (k = length hp)) as [->|Hne].
  - exists w. split; [|split].
    + unfold mbind, M_bind, getattr, index, update_self, mret, M_ret, raise. simpl.
      rewrite Hhp. simpl. rewrite (lookup_ge_None_2 hp (length hp)) by lia.
      reflexivity.
    + apply values_only_refl.
    + rewrite Hv, Nat.sub_diag. simpl. rewrite app_nil_r. reflexivity.
  - destruct (lookup_lt_is_Some_2 hp k) as [name Hname]; [lia|].
    destruct (lookup_lt_is_Some_2 (x o) k) as [v Hval]; [lia|].
    destruct (IH (S k)
                {| self := set_values (vs ++ [v]) (self w); heap := heap w;
                   files := files w; cv_log := cv_log w; fit_log := fit_log w |}
                (vs ++ [v])%list) as (w' & Hrep & Hfr & Hvals);
      [exact Ho | exact Hhp | reflexivity | lia | lia | lia |].
    exists w'. split; [|split].
    + unfold mbind, M_bind, getattr, index, update_self, mret, M_ret. simpl.
      rewrite Hhp. simpl. rewrite Hname. simpl. rewrite Ho. simpl.
      rewrite Hval. simpl. rewrite Hv. simpl. exact Hrep.
    + destruct Hfr as (Hh & Hf & Hc & Hl & Hs). simpl in *.
      unfold values_only. repeat split; trivial.
      right. destruct Hs as [Hs|[vs' Hs]]; rewrite Hs; eexists; reflexivity.
    + rewrite Hvals. replace (length hp - k) with (S (length hp - S k)) by lia.
      rewrite (drop_S _ _ _ Hval). simpl. rewrite <- app_assoc. reflexivity.
Qed.

Section AroundTheMinimizer.
Context `{Collaborators}.

(** The state in which [run] calls its minimizer, and the call. *)
Lemma run_reaches_minimizer method n_calls x0 w dims f :
  space (self w) = Some dims ->
  opt_method_of method = Some f ->
  run method n_calls x0 w
  = (minimize f (objective dims) dims n_calls x0 ≫= fun r =>
       _ ← update_self (set_opt r);
       _ ← update_self (set_values []);
       o ← getattr "opt" opt;
       _ ← report (seq 0 (length (x o)));
       dir ← read path_to_save;
       tgt ← read target;
       dump (PickledFunction f) (os_path_join dir (artifact_name tgt)))
      (update_self (set_optimization_method method) w).2.
Proof.
  intros Hs Hf. unfold run.
  erewrite bind_Return; [|unfold getattr; rewrite Hs; reflexivity].
  erewrite bind_Return; [|reflexivity].
  erewrite bind_Return; [|reflexivity].
  rewrite Hf.
  erewrite bind_Return; [|reflexivity].
  erewrite bind_Return; [|unfold getattr; simpl; rewrite Hs; reflexivity].
  reflexivity.
Qed.

(** X11.  An exception raised by the minimizer (by the objective or the
    scorer under it, say) leaves [run] as it is: same exception, and the
    state is the one the minimizer left: no result is stored, no file is
    written. *)
Theorem run_propagates_minimizer_error method n_calls x0 w dims f e w1 :
  space (self w) = Some dims ->
  opt_method_of method = Some f ->
  minimize f (objective dims) dims n_calls x0
    (update_self (set_optimization_method method) w).2 = (Raise e, w1) ->
  run method n_calls x0 w = (Raise e, w1).
Proof.
  intros Hs Hf Hmin. rewrite (run_reaches_minimizer _ _ _ _ _ _ Hs Hf).
  unfold mbind at 1. unfold M_bind. rewrite Hmin. reflexivity.
Qed.

(** X12.  When the best point of the minimizer's result has more entries
    than [self.hyperparameters] has names, [run] raises [IndexError] in the
    loop of line 237, after the search: the result is in [self.opt],
    [self.values] holds only the entries that have a name, and [dump] is
    not reached, so no file is written. *)
Theorem run_best_point_too_long method n_calls x0 w dims f r w1 hp :
  space (self w) = Some dims ->
  opt_method_of method = Some f ->
  minimize f (objective dims) dims n_calls x0
    (update_self (set_optimization_method method) w).2 = (Return r, w1) ->
  hyperparameters (self w1) = Some hp ->
  length hp < length (x r) ->
  exists w',
    run method n_calls x0 w = (Raise (IndexError "list index out of range"), w') /\
    opt (self w') = Some r /\
    values (self w') = Some (take (length hp) (x r)) /\
    files w' = files w1 /\
    heap w' = heap w1 /\ cv_log w' = cv_log w1 /\ fit_log w' = fit_log w1.
Proof.
  intros Hs Hf Hmin Hhp Hlong. rewrite (run_reaches_minimizer _ _ _ _ _ _ Hs Hf).
  unfold mbind at 1. unfold M_bind at 1. rewrite Hmin.
  set (w3 := {| self := set_values [] (set_opt r (self w1)); heap := heap w1;
                files := files w1; cv_log := cv_log w1; fit_log := fit_log w1 |}).
  destruct (report_runs_out (length (x r)) 0 w3 r hp []) as (w4 & Hrep & Hfr & Hvals);
    [reflexivity | exact Hhp | reflexivity | lia | simpl; lia | simpl; lia |].
  destruct Hfr as (Hh4 & Hf4 & Hc4 & Hl4 & Hs4).
  rewrite drop_0, Nat.sub_0_r in Hvals. simpl in Hvals.
  exists w4. split.
  - unfold mbind, M_bind, update_self, getattr, read, dump. simpl.
    fold w3. rewrite Hrep. reflexivity.
  - rewrite Hh4, Hf4, Hc4, Hl4. simpl.
    repeat split; try reflexivity; try assumption.
    destruct Hs4 as [->|[vs ->]]; reflexivity.
Qed.
End AroundTheMinimizer.

(** ** Trainer: when it returns, and what it has done then *)

Lemma bound_params_outside pairs m q :
  q ∉ pairs.*1 -> bound_params pairs m !! q = m !! q.
Proof.
  unfold bound_params. revert m.
  induction pairs as [|[p v] rest IH]; intros m Hq; simpl; [reflexivity|].
  simpl in Hq. apply not_elem_of_cons in Hq as [Hne Hq].
  rewrite IH by exact Hq.
  destruct (m !! q) as [u|] eqn:E.
  - apply lookup_union_Some_raw. right. split; [|exact E].
    apply lookup_singleton_ne. congruence.
  - apply lookup_union_None. split; [|exact E].
    apply lookup_singleton_ne. congruence.
Qed.

Lemma bound_params_ext pairs m m' :
  (forall q, q ∉ pairs.*1 -> m !! q = m' !! q) ->
  bound_params pairs m = bound_params pairs m'.
Proof.
  unfold bound_params. revert m m'.
  induction pairs as [|[p v] rest IH]; intros m m' Hout; simpl.
  - apply map_eq. intros q. apply Hout. simpl. apply not_elem_of_nil.
  - apply IH. intros q Hq. simpl.
    destruct (decide (q = p)) as [->|Hne].
    + transitivity (Some v); [|symmetry];
        apply lookup_union_Some_l, lookup_singleton_eq.
    + assert (Hm : m !! q = m' !! q).
      { apply Hout. simpl. apply not_elem_of_cons. auto. }
      rewrite !lookup_union, !lookup_singleton_ne by congruence.
      rewrite Hm. reflexivity.
Qed.

Lemma bound_params_idem pairs m :
  bound_params pairs (bound_params pairs m) = bound_params pairs m.
Proof. apply bound_params_ext. intros q Hq. apply bound_params_outside, Hq. Qed.

(** The loop of lines 325-326 on an estimator that exists. *)
Lemma apply_hyperparameters_returns pairs w l e :
  model (self w) = Some (Some l) -> heap w !! l = Some e ->
  exists w',
    apply_hyperparameters pairs w = (Return tt, w') /\
    self w' = self w /\ files w' = files w /\
    cv_log w' = cv_log w /\ fit_log w' = fit_log w /\
    heap w' = <[l := {| ctor := ctor e; params := bound_params pairs (params e);
                        fitted := fitted e |}]> (heap w).
Proof.
  revert w e. induction pairs as [|[p v] rest IH]; intros w e Hm Hl.
  - exists w. simpl. repeat split; trivial.
    symmetry. apply insert_id. destruct e. exact Hl.
  - destruct (IH {| self := self w; heap := <[l := with_params {[p := v]} e]> (heap w);
                    files := files w; cv_log := cv_log w; fit_log := fit_log w |}
                (with_params {[p := v]} e))
      as (w' & Hrun & Hs & Hf & Hc & Hfl & Hh);
      [exact Hm | apply lookup_insert_eq |].
    exists w'. split.
    + simpl. unfold mbind, M_bind, getattr, set_params, deref, store. simpl.
      rewrite Hm. unfold mbind, M_bind. simpl. rewrite Hl. simpl. exact Hrun.
    + simpl in *. repeat split; trivial.
      rewrite Hh, insert_insert_eq. reflexivity.
Qed.

Lemma apply_hyperparameters_dom pairs w res w' :
  apply_hyperparameters pairs w = (res, w') -> dom (heap w') = dom (heap w).
Proof.
  revert w. induction pairs as [|[p v] rest IH]; intros w Hrun; simpl in Hrun.
  - injection Hrun as <- <-. reflexivity.
  - apply bind_inv in Hrun as [(m & w1 & H1 & Hrun)|(e & H1 & ->)];
      apply getattr_inv in H1 as [-> H1]; [|reflexivity].
    apply bind_inv in Hrun as [(u & w1 & H2 & Hrun)|(e & H2 & ->)];
      apply set_params_inv in H2 as (_ & _ & _ & _ & H2).
    + destruct H2 as (l & e & _ & Hl & Hh). rewrite (IH _ Hrun), Hh, dom_insert_L.
      apply subseteq_union_1_L, singleton_subseteq_l, elem_of_dom. eauto.
    + rewrite H2. reflexivity.
Qed.

Lemma train_model_forward w hp vs l e X y :
  trainable w hp vs l e X y ->
  train_model w = (Return (Some l), trained w hp vs l e X y).
Proof.
  intros (Hhp & Hv & Hest & Hl & Hsel & Hy).
  destruct (apply_hyperparameters_returns (zip hp vs)
              {| self := set_model (Some l) (self w); heap := heap w;
                 files := files w; cv_log := cv_log w; fit_log := fit_log w |} l e)
    as (w1 & Hrun & Hs1 & Hf1 & Hc1 & Hfl1 & Hh1); [reflexivity | exact Hl |].
  simpl in Hs1, Hf1, Hc1, Hfl1, Hh1.
  unfold train_model.
  erewrite bind_Return; [|reflexivity].
  erewrite bind_Return; [|reflexivity].
  erewrite bind_Return; [|unfold getattr; simpl; rewrite Hhp; reflexivity].
  erewrite bind_Return; [|unfold getattr; simpl; rewrite Hv; reflexivity].
  rewrite Hest.
  erewrite bind_Return; [|exact Hrun].
  erewrite bind_Return; [|unfold getattr; cbn beta; rewrite Hs1; reflexivity].
  erewrite bind_Return;
    [|unfold deref; cbn beta; rewrite Hh1, lookup_insert_eq; reflexivity].
  erewrite bind_Return; [|reflexivity].
  erewrite bind_Return; [|reflexivity].
  rewrite Hs1. simpl.
  erewrite bind_Return; [|unfold lift; rewrite Hsel; reflexivity].
  erewrite bind_Return; [|reflexivity].
  rewrite Hs1. simpl.
  erewrite bind_Return; [|unfold lift, getitem; rewrite Hy; reflexivity].
  erewrite bind_Return;
    [|unfold fit, deref; cbn beta; rewrite Hh1, lookup_insert_eq; reflexivity].
  unfold getattr. simpl. rewrite Hs1. simpl.
  unfold trained. rewrite insert_insert_eq, Hf1, Hc1, Hfl1. reflexivity.
Qed.

Lemma train_model_returns_inv w m w' :
  train_model w = (Return m, w') ->
  exists hp vs l e X y, trainable w hp vs l e X y.
Proof.
  intros Htrain. unfold train_model in Htrain.
  bind_ok Htrain as est wa T1. apply read_inv in T1 as [-> T1].
  injection T1 as ->.
  bind_ok Htrain as u1 wa T2.
  apply update_self_inv in T2 as (_ & Hsa & Hha & _).
  bind_ok Htrain as hp wb T3. apply getattr_inv in T3 as [-> T3].
  rewrite Hsa in T3. simpl in T3.
  bind_ok Htrain as vs wb T4. apply getattr_inv in T4 as [-> T4].
  rewrite Hsa in T4. simpl in T4.
  bind_ok Htrain as u2 wb T5.
  pose proof (apply_hyperparameters_dom _ _ _ _ T5) as Hdom.
  assert (Hnames : forall p v, (p, v) ∈ zip hp vs -> p ∈ hp).
  { intros p v Hpv. apply (elem_of_zip_l _ _ _ _ Hpv). }
  destruct (apply_hyperparameters_frame hp _ _ _ _ Hnames T5) as (Hsb & _).
  bind_ok Htrain as m' wc T6. apply getattr_inv in T6 as [-> T6].
  rewrite Hsb, Hsa in T6. simpl in T6. injection T6 as <-.
  bind_ok Htrain as o wc T7. apply deref_inv in T7 as [-> [Hest Hob]].
  destruct o as [l eb]. simpl in Hest, Hob.
  bind_ok Htrain as tr wc T8. apply read_inv in T8 as [-> T8].
  injection T8 as ->.
  bind_ok Htrain as fs wc T9. apply read_inv in T9 as [-> T9].
  injection T9 as ->.
  bind_ok Htrain as X wc T10. unfold lift in T10. injection T10 as Hsel <-.
  bind_ok Htrain as tgt wc T11. apply read_inv in T11 as [-> T11].
  injection T11 as ->.
  bind_ok Htrain as y wc T12. unfold lift, getitem in T12.
  destruct (sample_train (self wb) !! target (self wb)) as [y'|] eqn:Hy;
    [|discriminate T12].
  assert (Hin : is_Some (heap w !! l)).
  { apply elem_of_dom. rewrite <- Hha, <- Hdom. apply elem_of_dom. eauto. }
  destruct Hin as [e Hl].
  rewrite Hsb, Hsa in Hsel, Hy. simpl in Hsel, Hy.
  exists hp, vs, l, e, X, y'. unfold trainable. auto 10.
Qed.

Lemma select_raises_KeyError df cols e :
  select df cols = Raise e -> exists k, e = KeyError k.
Proof.
  induction cols as [|c cs IH]; simpl; [discriminate|].
  destruct (df !! c); [|intros [= <-]; eauto].
  destruct (select df cs) as [m|e']; simpl; [discriminate|].
  intros [= <-]. apply IH. reflexivity.
Qed.

Lemma deref_raises r attr w e w' :
  deref r attr w = (Raise e, w') -> e = AttributeError attr.
Proof.
  unfold deref. destruct r as [l|]; [destruct (heap w !! l)|];
    intros [= <- <-]; reflexivity.
Qed.

Lemma apply_hyperparameters_raises pairs w e w' :
  apply_hyperparameters pairs w = (Raise e, w') -> exists a, e = AttributeError a.
Proof.
  revert w. induction pairs as [|[p v] rest IH]; intros w Hrun; simpl in Hrun.
  - discriminate Hrun.
  - apply bind_inv in Hrun as [(m & w1 & H1 & Hrun)|(e1 & H1 & [= ->])].
    2:{ apply getattr_inv in H1 as [_ [_ ->]]. eauto. }
    apply bind_inv in Hrun as [(u & w2 & H2 & Hrun)|(e1 & H2 & [= ->])].
    2:{ unfold set_params in H2.
        apply bind_inv in H2 as [(o & w3 & H3 & H2)|(e2 & H3 & [= ->])].
        - discriminate H2.
        - apply deref_raises in H3. eauto. }
    apply (IH _ Hrun).
Qed.

(** A training that raises has raised [AttributeError] or [KeyError], and
    before [fit] was reached. *)
Lemma train_model_raises_inv w e w' :
  train_model w = (Raise e, w') ->
  fit_log w' = fit_log w /\
  ((exists a, e = AttributeError a) \/ (exists k, e = KeyError k)).
Proof.
  intros Htrain. unfold train_model in Htrain.
  apply bind_inv in Htrain as [(est & w1 & H1 & Htrain)|(e1 & H1 & _)];
    apply read_inv in H1 as [-> H1]; [|discriminate H1].
  apply bind_inv in Htrain as [(u & w1 & H2 & Htrain)|(e1 & H2 & _)];
    apply update_self_inv in H2 as (Hr2 & Hs1 & _ & _ & _ & Hl1); [|discriminate Hr2].
  rewrite <- Hl1.
  apply bind_inv in Htrain as [(hp & w2 & H3 & Htrain)|(e1 & H3 & [= ->])];
    apply getattr_inv in H3 as [-> H3]; [|destruct H3 as [_ ->]; eauto].
  apply bind_inv in Htrain as [(vs & w2 & H4 & Htrain)|(e1 & H4 & [= ->])];
    apply getattr_inv in H4 as [-> H4]; [|destruct H4 as [_ ->]; eauto].
  apply bind_inv in Htrain as [(u' & w2 & H5 & Htrain)|(e1 & H5 & [= ->])].
  2:{ pose proof (apply_hyperparameters_raises _ _ _ _ H5) as Hk.
      apply (apply_hyperparameters_frame hp) in H5 as (_ & _ & _ & Hl & _).
      - auto.
      - intros p v Hpv. apply (elem_of_zip_l _ _ _ _ Hpv). }
  apply (apply_hyperparameters_frame hp) in H5 as (Hs2 & _ & _ & Hl2 & _);
    [|intros p v Hpv; apply (elem_of_zip_l _ _ _ _ Hpv)].
  rewrite <- Hl2.
  apply bind_inv in Htrain as [(m & w3 & H6 & Htrain)|(e1 & H6 & [= ->])];
    apply getattr_inv in H6 as [-> H6]; [|destruct H6 as [_ ->]; eauto].
  apply bind_inv in Htrain as [(o & w3 & H7 & Htrain)|(e1 & H7 & [= ->])].
  2:{ pose proof (deref_raises _ _ _ _ _ H7) as ->.
      apply deref_inv in H7 as [-> _]. eauto. }
  apply deref_inv in H7 as [-> H7].
  apply bind_inv in Htrain as [(tr & w3 & H8 & Htrain)|(e1 & H8 & _)];
    apply read_inv in H8 as [-> H8]; [|discriminate H8].
  apply bind_inv in Htrain as [(fs & w3 & H9 & Htrain)|(e1 & H9 & _)];
    apply read_inv in H9 as [-> H9]; [|discriminate H9].
  apply bind_inv in Htrain as [(X & w3 & H10 & Htrain)|(e1 & H10 & [= ->])];
    unfold lift in H10; injection H10 as H10 <-.
  2:{ split; [reflexivity|]. right. apply (select_raises_KeyError _ _ _ H10). }
  apply bind_inv in Htrain as [(tgt & w3 & H11 & Htrain)|(e1 & H11 & _)];
    apply read_inv in H11 as [-> H11]; [|discriminate H11].
  apply bind_inv in Htrain as [(y & w3 & H12 & Htrain)|(e1 & H12 & [= ->])];
    unfold lift in H12; injection H12 as H12 <-.
  2:{ split; [reflexivity|]. right. unfold getitem in H12.
      destruct (tr !! tgt); [discriminate H12|]. injection H12 as <-. eauto. }
  apply bind_inv in Htrain as [(u'' & w3 & H13 & Htrain)|(e1 & H13 & [= ->])].
  - apply fit_inv in H13 as (Hs3 & _).
    apply getattr_inv in Htrain as [_ [Hnone _]].
    rewrite Hs3, H6 in Hnone. discriminate Hnone.
  - assert (e1 = AttributeError "fit").
    { unfold fit in H13. destruct (deref m "fit" w2) as [[[l0 e0]|e0] w0] eqn:Hd.
      - discriminate H13.
      - injection H13 as <- _. apply (deref_raises _ _ _ _ _ Hd). }
    subst e1. apply fit_inv in H13 as (_ & _ & _ & _ & Hl3). eauto.
Qed.

(** X13.  When [self.hyperparameters] or [self.values] does not exist,
    when [self.estimator] is [None], or when the train table lacks a
    feature column or the target column, [train_model] raises
    [AttributeError] or [KeyError], and it does so before [fit] is
    reached. *)
Theorem train_model_raises_before_fit w :
  hyperparameters (self w) = None \/ values (self w) = None \/
  estimator (self w) = None \/
  (exists f, f ∈ RFE_features (self w) /\ sample_train (self w) !! f = None) \/
  sample_train (self w) !! target (self w) = None ->
  exists e w',
    train_model w = (Raise e, w') /\
    fit_log w' = fit_log w /\
    ((exists a, e = AttributeError a) \/ (exists k, e = KeyError k)).
Proof.
  intros Hmiss. destruct (train_model w) as [[m|e] w'] eqn:Htrain.
  - exfalso.
    destruct (train_model_returns_inv _ _ _ Htrain)
      as (hp & vs & l & e & X & y & Hhp & Hv & Hest & _ & Hsel & Hy).
    destruct Hmiss as [H|[H|[H|[(f & Hf & Hnone)|H]]]]; try congruence.
    destruct (select_missing _ _ _ Hf Hnone) as [e' He']. congruence.
  - exists e, w'. split; [reflexivity|].
    apply (train_model_raises_inv _ _ _ Htrain).
Qed.

(** Witness of X13: the train table has no column ["t"]. *)
Lemma train_model_raises_before_fit_witness :
  exists e w',
    sample_train (self Stub.no_target) !! target (self Stub.no_target) = None /\
    train_model Stub.no_target = (Raise e, w') /\
    fit_log w' = [].
Proof.
  destruct (train_model_raises_before_fit Stub.no_target)
    as (e & w' & Htrain & Hlog & _).
  - right. right. right. right. reflexivity.
  - exists e, w'. split; [reflexivity|]. split; [exact Htrain | exact Hlog].
Defined.

(** X14.  A training that returns has returned the estimator itself, now
    also [self.model]; it has overwritten on it the parameters paired by
    [zip(self.hyperparameters, self.values)] and fitted it once, on the
    feature columns and the target column of the train table; no other
    object, no file and no score is touched, and the test table is not
    read. *)
Theorem train_model_effect w m w' :
  train_model w = (Return m, w') ->
  exists hp vs l e X y,
    trainable w hp vs l e X y /\
    m = Some l /\
    self w' = set_model (Some l) (self w) /\
    heap w' = <[l := {| ctor := ctor e;
                        params := bound_params (zip hp vs) (params e);
                        fitted := Some (X, y) |}]> (heap w) /\
    fit_log w' = (fit_log w ++ [(l, X, y)])%list /\
    files w' = files w /\ cv_log w' = cv_log w.
Proof.
  intros Htrain.
  destruct (train_model_returns_inv _ _ _ Htrain) as (hp & vs & l & e & X & y & Hpre).
  pose proof (train_model_forward _ _ _ _ _ _ _ Hpre) as Hfwd.
  rewrite Htrain in Hfwd. injection Hfwd as -> ->.
  exists hp, vs, l, e, X, y. repeat split; trivial; apply Hpre.
Qed.

(** X15.  Training twice is training once: a second [train_model] right
    after one that returned returns the same estimator and leaves [self]
    and every estimator object (parameters and fitted state) as the first
    left them; only the record of fits grows, by the same entry. *)
Theorem train_model_idempotent w m w1 :
  train_model w = (Return m, w1) ->
  exists w2 entry,
    train_model w1 = (Return m, w2) /\
    self w2 = self w1 /\ heap w2 = heap w1 /\
    files w2 = files w1 /\ cv_log w2 = cv_log w1 /\
    fit_log w1 = (fit_log w ++ [entry])%list /\
    fit_log w2 = (fit_log w1 ++ [entry])%list.
Proof.
  intros Htrain.
  destruct (train_model_returns_inv _ _ _ Htrain) as (hp & vs & l & e & X & y & Hpre).
  pose proof (train_model_forward _ _ _ _ _ _ _ Hpre) as Hfwd.
  rewrite Htrain in Hfwd. injection Hfwd as -> ->.
  destruct Hpre as (Hhp & Hv & Hest & Hl & Hsel & Hy).
  set (e1 := {| ctor := ctor e; params := bound_params (zip hp vs) (params e);
                fitted := Some (X, y) |}).
  assert (Hpre1 : trainable (trained w hp vs l e X y) hp vs l e1 X y).
  { unfold trainable, trained. simpl. repeat split; trivial.
    apply lookup_insert_eq. }
  exists (trained (trained w hp vs l e X y) hp vs l e1 X y), (l, X, y).
  split; [apply train_model_forward, Hpre1|].
  unfold trained. simpl. repeat split; trivial.
  rewrite bound_params_idem, insert_insert_eq. reflexivity.
Qed.

(** Witness of X14 and X15: training the searched instance of [Stub]. *)
Lemma train_model_effect_witness :
  exists w' X y,
    train_model Stub.searched = (Return (Some 0%nat), w') /\
    fit_log w' = [(0%nat, X, y)] /\
    select Stub.train ["a"; "b"] = Return X /\
    Stub.train !! "y" = Some y.
Proof.
  assert (Ht : (train_model Stub.searched).1 = Return (Some 0%nat))
    by (vm_compute; reflexivity).
  assert (Hfl : fit_log Stub.searched = []) by (vm_compute; reflexivity).
  assert (Htr : sample_train (self Stub.searched) = Stub.train)
    by (vm_compute; reflexivity).
  assert (Hfs : RFE_features (self Stub.searched) = ["a"; "b"])
    by (vm_compute; reflexivity).
  assert (Htg : target (self Stub.searched) = "y") by (vm_compute; reflexivity).
  destruct (train_model Stub.searched) as [o w'] eqn:Htrain. simpl in Ht. subst o.
  destruct (train_model_effect _ _ _ Htrain)
    as (hp & vs & l & e & X & y & Hpre & Hm & _ & _ & Hlog & _).
  injection Hm as <-.
  destruct Hpre as (_ & _ & _ & _ & Hsel & Hy).
  rewrite Htr, Hfs in Hsel. rewrite Htr, Htg in Hy. rewrite Hfl in Hlog.
  exists w', X, y. auto.
Defined.

Lemma train_model_idempotent_witness :
  exists w1 w2,
    train_model Stub.searched = (Return (Some 0%nat), w1) /\
    train_model w1 = (Return (Some 0%nat), w2) /\
    heap w2 = heap w1.
Proof.
  assert (Ht : (train_model Stub.searched).1 = Return (Some 0%nat))
    by (vm_compute; reflexivity).
  destruct (train_model Stub.searched) as [o w1] eqn:Htrain. simpl in Ht. subst o.
  destruct (train_model_idempotent _ _ _ Htrain) as (w2 & entry & H2 & _ & Hh & _).
  exists w1, w2. auto.
Defined.

(** Witness of X11: a Bayesian search on an instance without estimator;
    the objective raises under the minimizer. *)
Lemma run_propagates_minimizer_error_witness :
  exists e w1,
    run (H := Stub.collaborators) "bayesian" 10 None Stub.unbuilt = (Raise e, w1) /\
    opt (self w1) = None /\ files w1 = ∅.
Proof.
  assert (He : exists e,
            (minimize (Collaborators := Stub.collaborators) gp_minimize
               (objective (H := Stub.collaborators) the_space) the_space 10 None
               (update_self (set_optimization_method "bayesian") Stub.unbuilt).2).1
            = Raise e) by (eexists; vm_compute; reflexivity).
  assert (Hw : (fun w => (opt (self w), files w))
                 (minimize (Collaborators := Stub.collaborators) gp_minimize
                    (objective (H := Stub.collaborators) the_space) the_space 10 None
                    (update_self (set_optimization_method "bayesian") Stub.unbuilt).2).2
               = (None, ∅)) by (vm_compute; reflexivity).
  destruct He as [e He].
  destruct (minimize (Collaborators := Stub.collaborators) gp_minimize
              (objective (H := Stub.collaborators) the_space) the_space 10 None
              (update_self (set_optimization_method "bayesian") Stub.unbuilt).2)
    as [o w1] eqn:Hmin.
  simpl in He, Hw. subst o.
  exists e, w1. split.
  - apply (run_propagates_minimizer_error (H := Stub.collaborators)
             "bayesian" 10 None Stub.unbuilt the_space gp_minimize e w1);
      [reflexivity | reflexivity | exact Hmin].
  - split; congruence.
Defined.

(** Witness of X12: a random search on the instance of [Stub] whose
    [self.hyperparameters] has two names, for a best point of three
    entries. *)
Lemma run_best_point_too_long_witness :
  exists w',
    run (H := Stub.collaborators) "random_search" 10 None Stub.short_names
      = (Raise (IndexError "list index out of range"), w') /\
    values (self w') = Some [VReal (1 # 10); VInt 100] /\
    files w' = ∅.
Proof.
  assert (Hr : exists y,
            (minimize (Collaborators := Stub.collaborators) dummy_minimize
               (objective (H := Stub.collaborators) the_space) the_space 10 None
               (update_self (set_optimization_method "random_search")
                  Stub.short_names).2).1
            = Return {| x := Stub.default_point; x_iters := [Stub.default_point];
                        func_vals := [y] |})
    by (eexists; vm_compute; reflexivity).
  assert (Hh : (fun w => (hyperparameters (self w), files w))
            (minimize (Collaborators := Stub.collaborators) dummy_minimize
               (objective (H := Stub.collaborators) the_space) the_space 10 None
               (update_self (set_optimization_method "random_search")
                  Stub.short_names).2).2
            = (Some ["learning_rate"; "n_estimators"], ∅))
    by (vm_compute; reflexivity).
  destruct Hr as [y Hr].
  destruct (minimize (Collaborators := Stub.collaborators) dummy_minimize
              (objective (H := Stub.collaborators) the_space) the_space 10 None
              (update_self (set_optimization_method "random_search")
                 Stub.short_names).2)
    as [o w1] eqn:Hmin.
  simpl in Hr, Hh. subst o.
  assert (Hhp : hyperparameters (self w1) = Some ["learning_rate"; "n_estimators"])
    by congruence.
  assert (Hfiles : files w1 = ∅) by congruence.
  destruct (run_best_point_too_long (H := Stub.collaborators) "random_search" 10 None
              Stub.short_names the_space dummy_minimize _ w1 _
              eq_refl eq_refl Hmin Hhp)
    as (w' & Hrun & _ & Hv & Hf & _).
  { simpl. lia. }
  exists w'. split; [exact Hrun|]. split; [exact Hv|]. congruence.
Defined.

(** ** Diagnostic plots *)

Lemma concat_is_join a b :
  String.prefix "/" b = false ->
  a ++ b = os_path_join a b <-> a = "" \/ ends_with_sep a = true.
Proof.
  intros Hb. unfold os_path_join, ends_with_sep. rewrite Hb.
  destruct (String.eqb a "") eqn:Ha.
  - apply String.eqb_eq in Ha. subst a. split; auto.
  - destruct (String.eqb _ "/") eqn:Hsep.
    + split; auto.
    + split.
      * intros Heq. apply string_app_inj_l in Heq.
        apply (f_equal String.length) in Heq.
        rewrite string_length_app in Heq. simpl in Heq. lia.
      * intros [->|Habs]; discriminate.
Qed.

Section PlotProperties.
Context `{Plotter}.

(** X16.  Before any search has stored its result in [self.opt], each of
    the three plotting methods raises [AttributeError] and saves nothing. *)
Theorem plots_need_a_search s :
  opt (self (lab s)) = None ->
  (exists a, convergence_plot s = (Raise (AttributeError a), s)) /\
  (forall save, objective_plot save s = (Raise (AttributeError "opt"), s)) /\
  (forall sample_source minimum n_minimum_search save,
     objective_plot_adjust sample_source minimum n_minimum_search save s
     = (Raise (AttributeError "opt"), s)).
Proof.
  intros Ho. split; [|split].
  - unfold convergence_plot, mbind, P_bind, attr.
    destruct (optimization_method (self (lab s))); [|eauto].
    rewrite Ho. eauto.
  - intros save. unfold objective_plot, mbind, P_bind, attr. rewrite Ho. reflexivity.
  - intros src mn nms save. unfold objective_plot_adjust, mbind, P_bind, attr.
    rewrite Ho. reflexivity.
Qed.

(** X17.  Whatever its outcome, [objective_plot] changes nothing of the
    instance and saves, in this order and as far as it got, the files
    [path_to_save + 'plot_objective.png'] and
    [path_to_save + 'plot_evaluations.png'] when [save] holds, and none
    otherwise; when it returns, it has saved both.  The names do not
    depend on the target, and the paths are plain concatenations: such a
    path is what [os.path.join] gives (a file inside the output directory)
    only when [path_to_save] is empty or ends with the separator. *)
Theorem objective_plot_files save s res s' :
  objective_plot save s = (res, s') ->
  let dir := path_to_save (self (lab s)) in
  let names := if save then [dir ++ "plot_objective.png";
                             dir ++ "plot_evaluations.png"]
               else [] in
  lab s' = lab s /\
  (exists done rest, saved s' = (saved s ++ done)%list /\ names = (done ++ rest)%list /\
                     (res = Return tt -> rest = [])) /\
  (dir ++ "plot_objective.png" = os_path_join dir "plot_objective.png"
   <-> dir = "" \/ ends_with_sep dir = true).
Proof.
  intros Hplot dir names. split; [|split; [|apply concat_is_join; reflexivity]].
  - revert Hplot. unfold objective_plot, mbind, P_bind, attr, field, call, savefig,
      mret, P_ret. simpl.
    destruct (opt (self (lab s))) as [o|]; [|intros [= <- <-]; reflexivity].
    destruct (plot_objective o _); [|intros [= <- <-]; reflexivity].
    destruct save; simpl.
    + destruct (save_figure _); simpl; [|intros [= <- <-]; reflexivity].
      destruct (opt (self (lab s))) as [o'|]; [|intros [= <- <-]; reflexivity].
      destruct (plot_evaluations o'); [|intros [= <- <-]; reflexivity].
      destruct (save_figure _); intros [= <- <-]; reflexivity.
    + destruct (opt (self (lab s))) as [o'|]; [|intros [= <- <-]; reflexivity].
      destruct (plot_evaluations o'); intros [= <- <-]; reflexivity.
  - revert Hplot. unfold objective_plot, mbind, P_bind, attr, field, call, savefig,
      mret, P_ret. simpl.
    assert (Hnone : forall e, (Raise e : outcome unit) = Return tt -> names = [])
      by (intros e Habs; discriminate Habs).
    destruct (opt (self (lab s))) as [o|];
      [|intros [= <- <-]; exists [], names; rewrite app_nil_r; eauto].
    destruct (plot_objective o _);
      [|intros [= <- <-]; exists [], names; rewrite app_nil_r; eauto].
    destruct save; simpl.
    + destruct (save_figure _); simpl;
        [|intros [= <- <-]; exists [], names; rewrite app_nil_r; eauto].
      destruct (opt (self (lab s))) as [o'|];
        [|intros [= <- <-]; simpl;
          exists [dir ++ "plot_objective.png"], [dir ++ "plot_evaluations.png"];
          repeat split; trivial; intros Habs; discriminate Habs].
      destruct (plot_evaluations o');
        [|intros [= <- <-]; simpl;
          exists [dir ++ "plot_objective.png"], [dir ++ "plot_evaluations.png"];
          repeat split; trivial; intros Habs; discriminate Habs].
      destruct (save_figure _); intros [= <- <-]; simpl.
      * exists names, []. unfold names. rewrite <- app_assoc. auto.
      * exists [dir ++ "plot_objective.png"], [dir ++ "plot_evaluations.png"].
        repeat split; trivial. intros Habs; discriminate Habs.
    + destruct (opt (self (lab s))) as [o'|];
        [|intros [= <- <-]; exists [], []; rewrite app_nil_r; auto].
      destruct (plot_evaluations o'); intros [= <- <-]; exists [], [];
        rewrite app_nil_r; auto.
Qed.
End PlotProperties.

(** Witness of X16: the prepared instance of [Stub], not yet searched. *)
Lemma plots_need_a_search_witness :
  objective_plot (H := Stub.plotter) true {| lab := Stub.prepared; saved := [] |}
  = (Raise (AttributeError "opt"), {| lab := Stub.prepared; saved := [] |}).
Proof.
  apply (plots_need_a_search (H := Stub.plotter)
           {| lab := Stub.prepared; saved := [] |}).
  reflexivity.
Defined.

(** Witness of X17: the instance of [Stub] after a Bayesian search, whose
    output directory ["out"] has no trailing separator. *)
Lemma objective_plot_files_witness :
  exists s',
    objective_plot (H := Stub.plotter) true
      {| lab := Stub.searched_bayesian; saved := [] |} = (Return tt, s') /\
    saved s' = ["outplot_objective.png"; "outplot_evaluations.png"] /\
    "outplot_objective.png" <> os_path_join "out" "plot_objective.png".
Proof.
  assert (Hr : (objective_plot (H := Stub.plotter) true
                  {| lab := Stub.searched_bayesian; saved := [] |}).1 = Return tt)
    by (vm_compute; reflexivity).
  assert (Hd : path_to_save (self Stub.searched_bayesian) = "out")
    by (vm_compute; reflexivity).
  destruct (objective_plot (H := Stub.plotter) true
              {| lab := Stub.searched_bayesian; saved := [] |}) as [res s'] eqn:Hplot.
  simpl in Hr. subst res.
  destruct (objective_plot_files (H := Stub.plotter) _ _ _ _ Hplot)
    as (_ & (done & rest & Hsaved & Hnames & Hrest) & _).
  rewrite (Hrest eq_refl), app_nil_r in Hnames. subst done.
  simpl in Hsaved. rewrite Hd in Hsaved.
  exists s'. split; [reflexivity|]. split; [exact Hsaved|]. discriminate.
Defined.
